(** * STservo_sdk: the [sts] servo wrapper over the packet handler

    A shallow embedding of [STservo_sdk/sts.py].  The class [sts] extends
    [protocol_packet_handler] and owns one [GroupSyncWrite] buffer.  The
    wrapper methods are embedded from [sts.py]; the helpers they call on the
    base class ([sts_lobyte], [sts_tohost], [writeTxRx], ...) and the
    [GroupSyncWrite] class live in sibling modules and are modelled from the
    specification of the engine. *)

From Stdlib Require Import ZArith Lia List.
From stdpp Require Import base option gmap list.

Local Open Scope Z_scope.

(** ** stservo_def: protocol constants and result codes *)

(** Modelled from the spec: the [CommResult] outcomes of a transaction
    (stservo_def's COMM_* codes). *)
Inductive CommResult : Set :=
  | Success | PortBusy | TxFailed | RxFailed | RxTimeout | RxCorrupt
  | RxWaiting | NotAvailable.

(** Modelled from the spec: the instruction set carried by a frame
    (stservo_def's INST_* codes). *)
Inductive Instruction : Set :=
  | Ping | ReadData | WriteData | RegWrite | Action | SyncWrite | SyncRead.

(** Modelled from the spec: the fail-fast errors raised on malformed caller
    input, before any bus traffic. *)
Inductive InputError : Set :=
  | InvalidParameterLength | LengthMismatch | DuplicateTarget | ValueOutOfRange.

Inductive Result (A : Type) : Type :=
  | Ok (a : A)
  | Raise (e : InputError).
Arguments Ok {A} a.
Arguments Raise {A} e.

#[global] Instance CommResult_eq_dec : EqDecision CommResult.
Proof. solve_decision. Defined.

#[global] Instance Instruction_eq_dec : EqDecision Instruction.
Proof. solve_decision. Defined.

Definition COMM_SUCCESS : CommResult := Success.

(** Modelled from the spec: stservo_def's reserved broadcast address
    ("reserved value, e.g. 0xFE"). *)
Definition BROADCAST_ID : Z := 254.

(** ** Memory table of sts.py (the addresses the claims use) *)

Definition STS_ID : Z := 5.
Definition STS_MODE : Z := 33.
Definition STS_ACC : Z := 41.
Definition STS_LOCK : Z := 55.
Definition STS_PRESENT_POSITION_L : Z := 56.
Definition STS_PRESENT_SPEED_L : Z := 58.
Definition STS_PRESENT_LOAD_L : Z := 60.
Definition STS_PRESENT_LOAD_H : Z := 61.
Definition STS_PRESENT_VOLTAGE : Z := 62.
Definition STS_PRESENT_TEMPERATURE : Z := 63.
Definition STS_MOVING : Z := 66.
Definition STS_PRESENT_CURRENT_L : Z := 69.
Definition STS_PRESENT_CURRENT_H : Z := 70.

(** ** Numeric codec of the packet handler *)

(** Modelled from the spec: protocol_packet_handler's [sts_lobyte], the
    spec's [lobyte] ("straightforward byte extraction"). *)
Definition sts_lobyte (w : Z) : Z := Z.land w 255.

(** Modelled from the spec: protocol_packet_handler's [sts_hibyte], the
    spec's [hibyte]. *)
Definition sts_hibyte (w : Z) : Z := Z.land (Z.shiftr w 8) 255.

(** Modelled from the spec: protocol_packet_handler's [sts_loword], the
    spec's [loword]. *)
Definition sts_loword (l : Z) : Z := Z.land l 65535.

(** Modelled from the spec: protocol_packet_handler's [sts_hiword], the
    spec's [hiword]. *)
Definition sts_hiword (l : Z) : Z := Z.land (Z.shiftr l 16) 65535.

(** Modelled from the spec: protocol_packet_handler's [sts_makeword], which
    recombines two bytes read back from the device; the low byte sits at the
    lower address, as the _L/_H register pairs of sts.py and the
    [(current_h << 8) | current_l] of [ReadCurrent] have it. *)
Definition sts_makeword (a b : Z) : Z :=
  Z.lor (Z.land a 255) (Z.shiftl (Z.land b 255) 8).

(** Modelled from the spec: protocol_packet_handler's [sts_makedword], which
    recombines two words, [loword] first. *)
Definition sts_makedword (a b : Z) : Z :=
  Z.lor (Z.land a 65535) (Z.shiftl (Z.land b 65535) 16).

(** Modelled from the spec: protocol_packet_handler's [sts_tohost], the
    spec's [to_signed15 raw sign_bit_index]: "if bit sign_bit_index is set,
    result = -(raw & ((1<<sign_bit_index)-1)); else result =
    raw & ((1<<sign_bit_index)-1)". *)
Definition sts_tohost (a b : Z) : Z :=
  if Z.testbit a b
  then - Z.land a (Z.shiftl 1 b - 1)
  else Z.land a (Z.shiftl 1 b - 1).

(** Modelled from the spec: protocol_packet_handler's [sts_toscs], the
    spec's [to_device15 value sign_bit_index]: the inverse of [sts_tohost],
    which "fails with ValueOutOfRange if abs(value) > (1<<sign_bit_index)-1".
    A negative value is sent as its magnitude with the sign bit set. *)
Definition sts_toscs (a b : Z) : Result Z :=
  if Z.abs a >? Z.shiftl 1 b - 1 then Raise ValueOutOfRange
  else if a <? 0 then Ok (Z.lor (- a) (Z.shiftl 1 b))
  else Ok a.

(** ** The bus seen from the wrapper

    A transaction handed to the engine is recorded as a [Request] carrying
    exactly the arguments the wrapper passes; the engine answers with a
    [Response].  The transmitted requests are kept, oldest first, in the
    handler's [port_log]. *)

Inductive Request : Type :=
  | ReqWrite (inst : Instruction) (target_id start_address length : Z)
             (data : list Z)
  | ReqRead (target_id start_address length : Z)
  | ReqAction (target_id : Z)
  | ReqSyncWrite (start_address block_length : Z) (blocks : list (Z * list Z)).

Record Response : Type := mkResponse {
  rx_data : list Z;
  rx_result : CommResult;
  rx_error : Z
}.

Definition request_instruction (r : Request) : Instruction :=
  match r with
  | ReqWrite inst _ _ _ _ => inst
  | ReqRead _ _ _ => ReadData
  | ReqAction _ => Action
  | ReqSyncWrite _ _ _ => SyncWrite
  end.

Definition request_target (r : Request) : Z :=
  match r with
  | ReqWrite _ i _ _ _ => i
  | ReqRead i _ _ => i
  | ReqAction i => i
  | ReqSyncWrite _ _ _ => BROADCAST_ID
  end.

(** The data bytes a request carries after its addressing fields. *)
Definition request_payload (r : Request) : list Z :=
  match r with
  | ReqWrite _ _ _ _ data => data
  | ReqRead _ _ _ => []
  | ReqAction _ => []
  | ReqSyncWrite _ _ blocks => concat (map (fun b => b.1 :: b.2) blocks)
  end.

(** ** group_sync_write: the staged sync-write buffer *)

Module GroupSyncWrite.

(** Modelled from the spec: the [SyncWriteBuffer], a "mapping from target
    address to a fixed-length byte block", bound at creation to a register
    window. *)
Record t : Type := mk {
  start_address : Z;
  data_length : Z;
  data_dict : gmap Z (list Z)
}.

(** Modelled from the spec: [new(start_address, block_length)] "creates an
    empty buffer bound to a fixed register window". *)
Definition new (start_address data_length : Z) : t :=
  mk start_address data_length ∅.

(** Modelled from the spec: [add(target_id, block)] "fails with
    LengthMismatch if len(block) != block_length, and with DuplicateTarget
    if target_id already staged; otherwise stores the block". *)
Definition addParam (sts_id : Z) (data : list Z) (g : t) : Result unit * t :=
  if negb (Z.of_nat (length data) =? data_length g) then (Raise LengthMismatch, g)
  else match data_dict g !! sts_id with
       | Some _ => (Raise DuplicateTarget, g)
       | None =>
           (Ok tt, mk (start_address g) (data_length g)
                      (<[sts_id := data]> (data_dict g)))
       end.

(** Modelled from the spec: [remove(target_id)] "discards a staged entry
    if present (no-op otherwise)". *)
Definition removeParam (sts_id : Z) (g : t) : t :=
  mk (start_address g) (data_length g) (delete sts_id (data_dict g)).

(** Modelled from the spec: [clear()] "empties all staged entries". *)
Definition clearParam (g : t) : t :=
  mk (start_address g) (data_length g) ∅.

End GroupSyncWrite.

(** ** The handler object and its state monad *)

(** The mutable state of one [sts] object: the port's transcript and the
    [groupSyncWrite] attribute set up by [__init__]. *)
Record sts : Type := mkSts {
  port_log : list Request;
  groupSyncWrite : GroupSyncWrite.t
}.

Definition M (A : Type) : Type := sts -> A * sts.

#[global] Instance M_ret : MRet M := fun A a s => (a, s).
#[global] Instance M_bind : MBind M :=
  fun A B f m s => let '(a, s') := m s in f a s'.

Definition evalM {A} (m : M A) (s : sts) : A := (m s).1.
Definition execM {A} (m : M A) (s : sts) : sts := (m s).2.

(** The requests put on the bus between the states [s] and [s']. *)
Definition sent (s s' : sts) : list Request :=
  drop (length (port_log s)) (port_log s').

(** The requests a computation puts on the bus when started in [s]. *)
Definition emitted {A} (m : M A) (s : sts) : list Request :=
  sent s (execM m s).

(** ** protocol_packet_handler: the transaction primitives the wrapper calls *)

Section Handler.

(** The far end of the bus: the engine's answer to a request, given
    everything transmitted before it. *)
Variable device : list Request -> Request -> Response.

(** One exchange: the request joins the transcript and the engine's answer
    is returned. *)
Definition txRx (r : Request) : M Response :=
  fun s => (device (port_log s) r,
            mkSts (port_log s ++ [r]) (groupSyncWrite s)).

(** Modelled from the spec: [write(target_id, start_address, bytes)]
    "encodes a WriteData frame, transmits" and returns the [CommResult]
    with the decoded [DeviceError]. *)
Definition writeTxRx (sts_id address length : Z) (data : list Z)
  : M (CommResult * Z) :=
  rx ← txRx (ReqWrite WriteData sts_id address length data);
  mret (rx_result rx, rx_error rx).

(** Modelled from the spec: [reg_write], "identical wire behavior to write
    but using the RegWrite instruction". *)
Definition regWriteTxRx (sts_id address length : Z) (data : list Z)
  : M (CommResult * Z) :=
  rx ← txRx (ReqWrite RegWrite sts_id address length data);
  mret (rx_result rx, rx_error rx).

(** Modelled from the spec: the one-byte case of [write]. *)
Definition write1ByteTxRx (sts_id address data : Z) : M (CommResult * Z) :=
  writeTxRx sts_id address 1 [data].

(** Modelled from the spec: [read(target_id, start_address, length)]
    "encodes a ReadData frame requesting length bytes starting at
    start_address" and returns [(bytes, CommResult, DeviceError)]. *)
Definition readTxRx (sts_id address length : Z)
  : M (list Z * CommResult * Z) :=
  rx ← txRx (ReqRead sts_id address length);
  mret (rx_data rx, rx_result rx, rx_error rx).

(** Modelled from the spec: the 1-, 2- and 4-byte reads, which recombine
    the bytes read back with [sts_makeword] and [sts_makedword]. *)
Definition read1ByteTxRx (sts_id address : Z) : M (Z * CommResult * Z) :=
  '(data, result, error) ← readTxRx sts_id address 1;
  mret (nth 0 data 0, result, error).

Definition read2ByteTxRx (sts_id address : Z) : M (Z * CommResult * Z) :=
  '(data, result, error) ← readTxRx sts_id address 2;
  mret (sts_makeword (nth 0 data 0) (nth 1 data 0), result, error).

Definition read4ByteTxRx (sts_id address : Z) : M (Z * CommResult * Z) :=
  '(data, result, error) ← readTxRx sts_id address 4;
  mret (sts_makedword (sts_makeword (nth 0 data 0) (nth 1 data 0))
                      (sts_makeword (nth 2 data 0) (nth 3 data 0)),
        result, error).

(** Modelled from the spec: [action(target_id)] "encodes and transmits an
    Action frame with no parameters". *)
Definition action (sts_id : Z) : M CommResult :=
  rx ← txRx (ReqAction sts_id);
  mret (rx_result rx).

(** Modelled from the spec: the buffer's [flush()]: "if no targets are
    staged, returns Success as a no-op; otherwise builds one SyncWrite
    frame to the broadcast address whose parameters are [start_address,
    block_length, target_id_1, block_1..., ...]" and transmits it once. *)
Definition txPacket : M CommResult :=
  fun s =>
    let g := groupSyncWrite s in
    match map_to_list (GroupSyncWrite.data_dict g) with
    | [] => (COMM_SUCCESS, s)
    | blocks =>
        (rx ← txRx (ReqSyncWrite (GroupSyncWrite.start_address g)
                                 (GroupSyncWrite.data_length g) blocks);
         mret (rx_result rx)) s
    end.

(** ** class sts(protocol_packet_handler) *)

(** [__init__]: the base class is set up on a port nothing was sent on yet
    (its protocol-end argument 0 is not used by the wrapper itself), and
    the buffer is [GroupSyncWrite(self, STS_ACC, 7)]. *)
Definition __init__ : sts := mkSts [] (GroupSyncWrite.new STS_ACC 7).

Definition WritePosEx (sts_id position speed acc : Z) : M (CommResult * Z) :=
  let txpacket := [acc; sts_lobyte position; sts_hibyte position; 0; 0;
                   sts_lobyte speed; sts_hibyte speed] in
  writeTxRx sts_id STS_ACC (Z.of_nat (length txpacket)) txpacket.

Definition ReadPos (sts_id : Z) : M (Z * CommResult * Z) :=
  '(sts_present_position, sts_comm_result, sts_error) ←
    read2ByteTxRx sts_id STS_PRESENT_POSITION_L;
  mret (sts_tohost sts_present_position 15, sts_comm_result, sts_error).

Definition ReadSpeed (sts_id : Z) : M (Z * CommResult * Z) :=
  '(sts_present_speed, sts_comm_result, sts_error) ←
    read2ByteTxRx sts_id STS_PRESENT_SPEED_L;
  mret (sts_tohost sts_present_speed 15, sts_comm_result, sts_error).

Definition ReadPosSpeed (sts_id : Z) : M (Z * Z * CommResult * Z) :=
  '(sts_present_position_speed, sts_comm_result, sts_error) ←
    read4ByteTxRx sts_id STS_PRESENT_POSITION_L;
  let sts_present_position := sts_loword sts_present_position_speed in
  let sts_present_speed := sts_hiword sts_present_position_speed in
  mret (sts_tohost sts_present_position 15, sts_tohost sts_present_speed 15,
        sts_comm_result, sts_error).

Definition ReadVoltage (sts_id : Z) : M (Z * CommResult * Z) :=
  read1ByteTxRx sts_id STS_PRESENT_VOLTAGE.

Definition ReadTemperature (sts_id : Z) : M (Z * CommResult * Z) :=
  read1ByteTxRx sts_id STS_PRESENT_TEMPERATURE.

Definition ReadCurrent (sts_id : Z) : M (option Z * CommResult * Z) :=
  '(current_l, sts_comm_result_l, sts_error_l) ←
    read1ByteTxRx sts_id STS_PRESENT_CURRENT_L;
  '(current_h, sts_comm_result_h, sts_error_h) ←
    read1ByteTxRx sts_id STS_PRESENT_CURRENT_H;
  if bool_decide (sts_comm_result_l = COMM_SUCCESS)
     && bool_decide (sts_comm_result_h = COMM_SUCCESS)
  then mret (Some (Z.lor (Z.shiftl current_h 8) current_l), COMM_SUCCESS, 0)
  else mret (None, sts_comm_result_l, sts_error_l).

Definition ReadLoad (sts_id : Z) : M (option Z * CommResult * Z) :=
  '(load_l, sts_comm_result_l, sts_error_l) ←
    read1ByteTxRx sts_id STS_PRESENT_LOAD_L;
  '(load_h, sts_comm_result_h, sts_error_h) ←
    read1ByteTxRx sts_id STS_PRESENT_LOAD_H;
  if bool_decide (sts_comm_result_l = COMM_SUCCESS)
     && bool_decide (sts_comm_result_h = COMM_SUCCESS)
  then mret (Some (Z.lor (Z.shiftl load_h 8) load_l), COMM_SUCCESS, 0)
  else mret (None, sts_comm_result_l, sts_error_l).

Definition ReadMoving (sts_id : Z) : M (Z * CommResult * Z) :=
  read1ByteTxRx sts_id STS_MOVING.

Definition SyncWritePosEx (sts_id position speed acc : Z) : M (Result unit) :=
  let txpacket := [acc; sts_lobyte position; sts_hibyte position; 0; 0;
                   sts_lobyte speed; sts_hibyte speed] in
  fun s =>
    let '(r, g) := GroupSyncWrite.addParam sts_id txpacket (groupSyncWrite s) in
    (r, mkSts (port_log s) g).

Definition RegWritePosEx (sts_id position speed acc : Z) : M (CommResult * Z) :=
  let txpacket := [acc; sts_lobyte position; sts_hibyte position; 0; 0;
                   sts_lobyte speed; sts_hibyte speed] in
  regWriteTxRx sts_id STS_ACC (Z.of_nat (length txpacket)) txpacket.

Definition RegAction : M CommResult := action BROADCAST_ID.

Definition WriteID (current_id new_id : Z) : M (CommResult * Z) :=
  write1ByteTxRx current_id STS_ID new_id.

Definition WheelMode (sts_id : Z) : M (CommResult * Z) :=
  write1ByteTxRx sts_id STS_MODE 1.

(** [sts_toscs] raising on an out-of-range speed aborts the call before
    the packet is built. *)
Definition WriteSpec (sts_id speed acc : Z) : M (Result (CommResult * Z)) :=
  match sts_toscs speed 15 with
  | Raise e => mret (Raise e)
  | Ok speed =>
      let txpacket := [acc; 0; 0; 0; 0; sts_lobyte speed; sts_hibyte speed] in
      r ← writeTxRx sts_id STS_ACC (Z.of_nat (length txpacket)) txpacket;
      mret (Ok r)
  end.

Definition LockEprom (sts_id : Z) : M (CommResult * Z) :=
  write1ByteTxRx sts_id STS_LOCK 1.

Definition unLockEprom (sts_id : Z) : M (CommResult * Z) :=
  write1ByteTxRx sts_id STS_LOCK 0.

End Handler.

(** ** Call sequences on one handler object *)

(** The methods sts.py defines on the handler. *)
Inductive StsCall : Type :=
  | CallWritePosEx (sts_id position speed acc : Z)
  | CallReadPos (sts_id : Z)
  | CallReadSpeed (sts_id : Z)
  | CallReadPosSpeed (sts_id : Z)
  | CallReadVoltage (sts_id : Z)
  | CallReadTemperature (sts_id : Z)
  | CallReadCurrent (sts_id : Z)
  | CallReadLoad (sts_id : Z)
  | CallReadMoving (sts_id : Z)
  | CallSyncWritePosEx (sts_id position speed acc : Z)
  | CallRegWritePosEx (sts_id position speed acc : Z)
  | CallRegAction
  | CallWriteID (current_id new_id : Z)
  | CallWheelMode (sts_id : Z)
  | CallWriteSpec (sts_id speed acc : Z)
  | CallLockEprom (sts_id : Z)
  | CallunLockEprom (sts_id : Z).

(** What a client can do with the [groupSyncWrite] attribute directly. *)
Inductive BufferCall : Type :=
  | CallAddParam (sts_id : Z) (data : list Z)
  | CallRemoveParam (sts_id : Z)
  | CallClearParam
  | CallTxPacket.

Section Calls.

Variable device : list Request -> Request -> Response.

Definition stsStep (c : StsCall) (s : sts) : sts :=
  match c with
  | CallWritePosEx i p v a => execM (WritePosEx device i p v a) s
  | CallReadPos i => execM (ReadPos device i) s
  | CallReadSpeed i => execM (ReadSpeed device i) s
  | CallReadPosSpeed i => execM (ReadPosSpeed device i) s
  | CallReadVoltage i => execM (ReadVoltage device i) s
  | CallReadTemperature i => execM (ReadTemperature device i) s
  | CallReadCurrent i => execM (ReadCurrent device i) s
  | CallReadLoad i => execM (ReadLoad device i) s
  | CallReadMoving i => execM (ReadMoving device i) s
  | CallSyncWritePosEx i p v a => execM (SyncWritePosEx i p v a) s
  | CallRegWritePosEx i p v a => execM (RegWritePosEx device i p v a) s
  | CallRegAction => execM (RegAction device) s
  | CallWriteID i n => execM (WriteID device i n) s
  | CallWheelMode i => execM (WheelMode device i) s
  | CallWriteSpec i v a => execM (WriteSpec device i v a) s
  | CallLockEprom i => execM (LockEprom device i) s
  | CallunLockEprom i => execM (unLockEprom device i) s
  end.

Definition bufferStep (c : BufferCall) (s : sts) : sts :=
  match c with
  | CallAddParam i d =>
      mkSts (port_log s) (GroupSyncWrite.addParam i d (groupSyncWrite s)).2
  | CallRemoveParam i =>
      mkSts (port_log s) (GroupSyncWrite.removeParam i (groupSyncWrite s))
  | CallClearParam =>
      mkSts (port_log s) (GroupSyncWrite.clearParam (groupSyncWrite s))
  | CallTxPacket => execM (txPacket device) s
  end.

Definition step (c : StsCall + BufferCall) (s : sts) : sts :=
  match c with
  | inl c => stsStep c s
  | inr c => bufferStep c s
  end.

(** The handler after a client program: [__init__], then the calls in
    order. *)
Definition run (cs : list (StsCall + BufferCall)) : sts :=
  fold_left (fun s c => step c s) cs __init__.

End Calls.

(** ** Vocabulary of the properties *)

(** A value decoded from [raw] as sign-magnitude with sign bit [b]: bit [b]
    set gives [-(raw & ((1<<b)-1))], otherwise [raw & ((1<<b)-1)]. *)
Definition sign_magnitude_at (b raw value : Z) : Prop :=
  value = if Z.testbit raw b
          then - Z.land raw (Z.shiftl 1 b - 1)
          else Z.land raw (Z.shiftl 1 b - 1).

(** [ReadPos] and [ReadSpeed] decode the 16-bit word that [read2ByteTxRx]
    returns for their register with sign bit [b]. *)
Definition ReadPos_decodes_at (b : Z) : Prop :=
  forall device s sts_id,
    sign_magnitude_at b
      (evalM (read2ByteTxRx device sts_id STS_PRESENT_POSITION_L) s).1.1
      (evalM (ReadPos device sts_id) s).1.1.

Definition ReadSpeed_decodes_at (b : Z) : Prop :=
  forall device s sts_id,
    sign_magnitude_at b
      (evalM (read2ByteTxRx device sts_id STS_PRESENT_SPEED_L) s).1.1
      (evalM (ReadSpeed device sts_id) s).1.1.

(** A servo answering every read with the bytes [0x00, 0x40]: the word
    0x4000, bit 14 set and bit 15 clear. *)
Definition device_word_0x4000 : list Request -> Request -> Response :=
  fun _ _ => mkResponse [0; 64] Success 0.

(** Encoding with sign bit [b] and decoding again gives back every value of
    [lo..hi]. *)
Definition signed_roundtrip_on (b lo hi : Z) : Prop :=
  forall v, lo <= v <= hi ->
    exists raw, sts_toscs v b = Ok raw /\ sts_tohost raw b = v.

(** A servo whose low-byte registers answer and whose high-byte registers
    (addresses 70 and 61) time out. *)
Definition device_high_byte_timeout : list Request -> Request -> Response :=
  fun _ r =>
    match r with
    | ReqRead _ a _ =>
        if (a =? STS_PRESENT_CURRENT_H) || (a =? STS_PRESENT_LOAD_H)
        then mkResponse [] RxTimeout 0
        else mkResponse [18] Success 0
    | _ => mkResponse [] Success 0
    end.

(** The parameter block the three position writes build. *)
Definition pos_block (position speed acc : Z) : list Z :=
  [acc; sts_lobyte position; sts_hibyte position; 0; 0;
   sts_lobyte speed; sts_hibyte speed].

(** The same request with another instruction. *)
Definition with_instruction (inst : Instruction) (r : Request) : Request :=
  match r with
  | ReqWrite _ i a n d => ReqWrite inst i a n d
  | _ => r
  end.

(** A responsive servo bus backed by register tables: a read of [n] bytes at
    address [a] of servo [i] returns the bytes [regs i a .. regs i (a+n-1)]. *)
Definition register_device (regs : Z -> Z -> Z)
  : list Request -> Request -> Response :=
  fun _ r =>
    match r with
    | ReqRead i a n =>
        mkResponse (map (fun k => regs i (a + Z.of_nat k)) (seq 0 (Z.to_nat n)))
                   Success 0
    | _ => mkResponse [] Success 0
    end.

(** What [__init__] establishes for the buffer and every call keeps: the
    register window is 7 bytes at [STS_ACC], and every staged block has 7
    bytes. *)
Definition buffer_inv (g : GroupSyncWrite.t) : Prop :=
  GroupSyncWrite.start_address g = STS_ACC /\
  GroupSyncWrite.data_length g = 7 /\
  forall i blk, GroupSyncWrite.data_dict g !! i = Some blk -> length blk = 7%nat.

(** A bus on which every request is acknowledged with [Success]. *)
Definition device_ack : list Request -> Request -> Response :=
  fun _ _ => mkResponse [] Success 0.

(** An [Action] request is the parameterless one to the broadcast id. *)
Definition action_is_broadcast (r : Request) : Prop :=
  request_instruction r = Action ->
  request_target r = BROADCAST_ID /\ request_payload r = [] /\
  r = ReqAction BROADCAST_ID.

(** ** The rest of the memory table and the wrapper's bus traffic *)

Definition STS_MODEL_L : Z := 3.
Definition STS_MODEL_H : Z := 4.
Definition STS_TORQUE_ENABLE : Z := 40.
Definition STS_GOAL_POSITION_L : Z := 42.
Definition STS_GOAL_POSITION_H : Z := 43.
Definition STS_GOAL_TIME_L : Z := 44.
Definition STS_GOAL_TIME_H : Z := 45.
Definition STS_GOAL_SPEED_L : Z := 46.
Definition STS_GOAL_SPEED_H : Z := 47.
Definition STS_PRESENT_POSITION_H : Z := 57.
Definition STS_PRESENT_SPEED_H : Z := 59.

(** The requests each method of sts.py hands to the engine, read off its
    body: they depend on the arguments only. *)
Definition call_requests (c : StsCall) : list Request :=
  match c with
  | CallWritePosEx i p v a => [ReqWrite WriteData i STS_ACC 7 (pos_block p v a)]
  | CallReadPos i => [ReqRead i STS_PRESENT_POSITION_L 2]
  | CallReadSpeed i => [ReqRead i STS_PRESENT_SPEED_L 2]
  | CallReadPosSpeed i => [ReqRead i STS_PRESENT_POSITION_L 4]
  | CallReadVoltage i => [ReqRead i STS_PRESENT_VOLTAGE 1]
  | CallReadTemperature i => [ReqRead i STS_PRESENT_TEMPERATURE 1]
  | CallReadCurrent i =>
      [ReqRead i STS_PRESENT_CURRENT_L 1; ReqRead i STS_PRESENT_CURRENT_H 1]
  | CallReadLoad i =>
      [ReqRead i STS_PRESENT_LOAD_L 1; ReqRead i STS_PRESENT_LOAD_H 1]
  | CallReadMoving i => [ReqRead i STS_MOVING 1]
  | CallSyncWritePosEx _ _ _ _ => []
  | CallRegWritePosEx i p v a => [ReqWrite RegWrite i STS_ACC 7 (pos_block p v a)]
  | CallRegAction => [ReqAction BROADCAST_ID]
  | CallWriteID i n => [ReqWrite WriteData i STS_ID 1 [n]]
  | CallWheelMode i => [ReqWrite WriteData i STS_MODE 1 [1]]
  | CallWriteSpec i v a =>
      match sts_toscs v 15 with
      | Ok e => [ReqWrite WriteData i STS_ACC 7
                   [a; 0; 0; 0; 0; sts_lobyte e; sts_hibyte e]]
      | Raise _ => []
      end
  | CallLockEprom i => [ReqWrite WriteData i STS_LOCK 1 [1]]
  | CallunLockEprom i => [ReqWrite WriteData i STS_LOCK 1 [0]]
  end.

(** The servo a call is made for: its id argument ([current_id] for
    [WriteID]); [RegAction] takes none and goes to everyone. *)
Definition call_target (c : StsCall) : Z :=
  match c with
  | CallWritePosEx i _ _ _ | CallReadPos i | CallReadSpeed i
  | CallReadPosSpeed i | CallReadVoltage i | CallReadTemperature i
  | CallReadCurrent i | CallReadLoad i | CallReadMoving i
  | CallSyncWritePosEx i _ _ _ | CallRegWritePosEx i _ _ _
  | CallWriteID i _ | CallWheelMode i | CallWriteSpec i _ _
  | CallLockEprom i | CallunLockEprom i => i
  | CallRegAction => BROADCAST_ID
  end.

(** The registers [a .. a+n-1] lie in one of the read/write areas of the
    memory table: EPROM [STS_ID .. STS_MODE] or SRAM
    [STS_TORQUE_ENABLE .. STS_LOCK]. *)
Definition in_writable_area (a n : Z) : bool :=
  (0 <? n) &&
  (((STS_ID <=? a) && (a + n - 1 <=? STS_MODE))
   || ((STS_TORQUE_ENABLE <=? a) && (a + n - 1 <=? STS_LOCK))).

(** The registers [a .. a+n-1] lie in the read-only SRAM area
    [STS_PRESENT_POSITION_L .. STS_PRESENT_CURRENT_H]. *)
Definition in_telemetry_area (a n : Z) : bool :=
  (0 <? n) && (STS_PRESENT_POSITION_L <=? a) && (a + n - 1 <=? STS_PRESENT_CURRENT_H).

(** What a request of the wrapper looks like: a read of 1, 2 or 4 telemetry
    bytes; a [WriteData] or [RegWrite] whose length is that of its data and
    whose window is writable; or the broadcast [Action]. *)
Definition wrapper_request_ok (r : Request) : bool :=
  match r with
  | ReqRead _ a n =>
      ((n =? 1) || (n =? 2) || (n =? 4)) && in_telemetry_area a n
  | ReqWrite inst _ a n d =>
      (bool_decide (inst = WriteData) || bool_decide (inst = RegWrite))
      && (Z.of_nat (length d) =? n) && in_writable_area a n
  | ReqAction i => i =? BROADCAST_ID
  | ReqSyncWrite _ _ _ => false
  end.

(** A servo reporting current 0x0312 and load 0x0312, each answer carrying
    a non-zero error byte. *)
Definition device_word_0x0312 : list Request -> Request -> Response :=
  fun _ r =>
    match r with
    | ReqRead _ a _ =>
        if (a =? STS_PRESENT_CURRENT_L) || (a =? STS_PRESENT_LOAD_L)
        then mkResponse [18] Success 32
        else mkResponse [3] Success 4
    | _ => mkResponse [] Success 0
    end.

(** Register tables for the read-back examples: every byte 0xFF, and the
    word 0x8005 in the present-speed registers. *)
Definition regs_all_0xFF : Z -> Z -> Z := fun _ _ => 255.

Definition regs_speed_0x8005 : Z -> Z -> Z :=
  fun _ a => if a =? STS_PRESENT_SPEED_L then 5
             else if a =? STS_PRESENT_SPEED_H then 128 else 0.

(** The byte a write request carries for register [a], if [a] is inside
    the window that starts at the request's start address. *)
Definition written_byte (r : Request) (a : Z) : option Z :=
  match r with
  | ReqWrite _ _ start _ data =>
      if start <=? a then data !! Z.to_nat (a - start) else None
  | _ => None
  end.

(** The calls that put nothing on the bus: [SyncWritePosEx], which only
    stages, and a [WriteSpec] whose speed the encoder refuses. *)
Definition call_is_silent (c : StsCall) : bool :=
  match c with
  | CallSyncWritePosEx _ _ _ _ => true
  | CallWriteSpec _ v _ => negb ((-32767 <=? v) && (v <=? 32767))
  | _ => false
  end.

(** * Properties *)

(** ** Numeric codec *)

Lemma sign_mask_ones (b : Z) : 0 <= b -> Z.shiftl 1 b - 1 = Z.ones b.
Proof.
  intros Hb. rewrite Z.shiftl_1_l, Z.ones_equiv. lia.
Qed.

Lemma sign_mask_pow (b : Z) : 0 <= b -> Z.shiftl 1 b - 1 = 2 ^ b - 1.
Proof. intros Hb. now rewrite Z.shiftl_1_l. Qed.

Lemma testbit_below (b v : Z) : 0 <= b -> 0 <= v < 2 ^ b -> Z.testbit v b = false.
Proof.
  intros Hb Hv. apply Z.testbit_false; [lia|].
  rewrite Z.div_small by lia. reflexivity.
Qed.

Lemma sts_tohost_magnitude (b v : Z) :
  0 <= b -> 0 <= v < 2 ^ b -> sts_tohost v b = v.
Proof.
  intros Hb Hv. unfold sts_tohost.
  rewrite testbit_below, sign_mask_ones, Z.land_ones by lia.
  apply Z.mod_small; lia.
Qed.

Lemma sts_tohost_sign_set (b m : Z) :
  0 <= b -> 0 <= m < 2 ^ b -> sts_tohost (Z.lor m (Z.shiftl 1 b)) b = - m.
Proof.
  intros Hb Hm. unfold sts_tohost.
  rewrite Z.shiftl_1_l, Z.lor_spec, Z.pow2_bits_true, orb_true_r by lia.
  rewrite <- (Z.shiftl_1_l b), sign_mask_ones, Z.land_lor_distr_l by lia.
  rewrite !Z.land_ones, Z.shiftl_1_l by lia.
  rewrite Z.mod_same, Z.lor_0_r, Z.mod_small by lia. reflexivity.
Qed.

Lemma sts_toscs_in_range (b v : Z) :
  0 <= b -> Z.abs v <= 2 ^ b - 1 ->
  exists raw, sts_toscs v b = Ok raw /\ sts_tohost raw b = v.
Proof.
  intros Hb Hv. unfold sts_toscs. rewrite sign_mask_pow by lia.
  destruct (Z.gtb_spec (Z.abs v) (2 ^ b - 1)) as [Hgt|_]; [lia|].
  destruct (Z.ltb_spec v 0) as [Hneg|Hpos].
  - eexists; split; [reflexivity|].
    rewrite sts_tohost_sign_set by lia. lia.
  - eexists; split; [reflexivity|].
    apply sts_tohost_magnitude; lia.
Qed.

Lemma sts_toscs_out_of_range (b v : Z) :
  0 <= b -> sts_toscs v b = Raise ValueOutOfRange <-> Z.abs v > 2 ^ b - 1.
Proof.
  intros Hb. unfold sts_toscs. rewrite sign_mask_pow by lia.
  destruct (Z.gtb_spec (Z.abs v) (2 ^ b - 1)) as [Hgt|Hle].
  - split; [lia | reflexivity].
  - split; [|lia]. destruct (v <? 0); discriminate.
Qed.

Lemma lor_below (n a b : Z) :
  0 <= n -> 0 <= a < 2 ^ n -> 0 <= b < 2 ^ n -> 0 <= Z.lor a b < 2 ^ n.
Proof.
  intros Hn Ha Hb.
  assert (E : Z.lor a b = Z.lor a b mod 2 ^ n).
  { rewrite <- Z.land_ones, Z.land_lor_distr_l, !Z.land_ones by lia.
    rewrite !Z.mod_small by lia. reflexivity. }
  rewrite E. apply Z.mod_pos_bound. lia.
Qed.

Lemma sts_makeword_range (a b : Z) : 0 <= sts_makeword a b < 65536.
Proof.
  unfold sts_makeword.
  change 255 with (Z.ones 8). rewrite !Z.land_ones by lia.
  pose proof (Z.mod_pos_bound a (2 ^ 8) ltac:(lia)) as Ha.
  pose proof (Z.mod_pos_bound b (2 ^ 8) ltac:(lia)) as Hb'.
  rewrite Z.shiftl_mul_pow2 by lia.
  change 65536 with (2 ^ 16). change (2 ^ 8) with 256 in *.
  apply lor_below; change (2 ^ 16) with 65536; lia.
Qed.

(** ** Reading position and speed *)

Ltac handler_unfold :=
  unfold emitted, sent, evalM, execM,
    WritePosEx, RegWritePosEx, SyncWritePosEx, WriteSpec, RegAction,
    ReadPos, ReadSpeed, ReadPosSpeed, ReadVoltage, ReadTemperature,
    ReadCurrent, ReadLoad, ReadMoving, WriteID, WheelMode, LockEprom,
    unLockEprom, write1ByteTxRx, writeTxRx, regWriteTxRx,
    read1ByteTxRx, read2ByteTxRx, read4ByteTxRx, readTxRx, action, txRx,
    mbind, M_bind, mret, M_ret in *;
  cbn [fst snd port_log groupSyncWrite rx_data rx_result rx_error] in *.

Example ReadPos_word_0x4000 :
  evalM (ReadPos device_word_0x4000 1) __init__ = (16384, Success, 0).
Proof. reflexivity. Qed.

(** C1, as stated, fails: with sign bit index 14 the word 0x4000 would
    decode to -0 = 0, but [ReadPos] and [ReadSpeed] return 16384. *)
Lemma ReadPos_sign_bit_14_counterexample :
  ~ ReadPos_decodes_at 14 /\ ~ ReadSpeed_decodes_at 14.
Proof.
  split; intros H; specialize (H device_word_0x4000 __init__ 1);
    vm_compute in H; discriminate H.
Qed.

(** C1 (amended): for every target id, [ReadPos] and [ReadSpeed] issue one
    2-byte read (at address 56, resp. 58) and decode the 16-bit word read
    with sign bit index 15: bit 15 set gives [-(raw & 0x7FFF)], otherwise
    [raw & 0x7FFF]; the decoded value lies in [-32767, 32767] and the
    communication result and device error are passed through. *)
Theorem ReadPos_ReadSpeed_sign_bit_15 :
  ReadPos_decodes_at 15 /\ ReadSpeed_decodes_at 15 /\
  forall device s sts_id,
    let rp := evalM (read2ByteTxRx device sts_id STS_PRESENT_POSITION_L) s in
    let rs := evalM (read2ByteTxRx device sts_id STS_PRESENT_SPEED_L) s in
    let p := evalM (ReadPos device sts_id) s in
    let v := evalM (ReadSpeed device sts_id) s in
    p.1.1 = (if Z.testbit rp.1.1 15 then - Z.land rp.1.1 32767
             else Z.land rp.1.1 32767) /\
    v.1.1 = (if Z.testbit rs.1.1 15 then - Z.land rs.1.1 32767
             else Z.land rs.1.1 32767) /\
    -32767 <= p.1.1 <= 32767 /\ -32767 <= v.1.1 <= 32767 /\
    (p.1.2, p.2) = (rp.1.2, rp.2) /\ (v.1.2, v.2) = (rs.1.2, rs.2) /\
    emitted (ReadPos device sts_id) s = [ReqRead sts_id 56 2] /\
    emitted (ReadSpeed device sts_id) s = [ReqRead sts_id 58 2].
Proof.
  assert (Hrange : forall raw,
             -32767 <= (if Z.testbit raw 15 then - Z.land raw 32767
                        else Z.land raw 32767) <= 32767).
  { intros raw.
    assert (E : Z.land raw 32767 = raw mod 32768)
      by (exact (Z.land_ones raw 15 ltac:(lia))).
    rewrite E. pose proof (Z.mod_pos_bound raw 32768 ltac:(lia)) as Hm.
    destruct (Z.testbit raw 15); lia. }
  split; [|split]; try (intros device s sts_id; reflexivity).
  intros device s sts_id.
  repeat split; try reflexivity; try apply Hrange;
    handler_unfold; rewrite drop_app_length; reflexivity.
Qed.

(** ** Signed round trip *)

Example sts_toscs_16384_at_14 : sts_toscs 16384 14 = Raise ValueOutOfRange.
Proof. reflexivity. Qed.

Example sts_toscs_minus_5_at_15 :
  sts_toscs (-5) 15 = Ok 32773 /\ sts_tohost 32773 15 = -5.
Proof. split; reflexivity. Qed.

(** C2, as stated, fails: 16384 lies in [-32767, 32767], yet with sign bit
    index 14 the encoder rejects it, as abs(16384) > (1<<14)-1. *)
Lemma signed_roundtrip_14_counterexample :
  ~ signed_roundtrip_on 14 (-32767) 32767.
Proof.
  intros H. destruct (H 16384 ltac:(lia)) as (raw & Henc & _).
  vm_compute in Henc. discriminate Henc.
Qed.

Lemma signed_roundtrip_general (b : Z) :
  0 <= b -> signed_roundtrip_on b (- (2 ^ b - 1)) (2 ^ b - 1).
Proof.
  intros Hb v Hv. apply sts_toscs_in_range; lia.
Qed.

Lemma sts_toscs_word (v raw : Z) :
  sts_toscs v 15 = Ok raw -> 0 <= raw < 65536.
Proof.
  unfold sts_toscs. change (Z.shiftl 1 15) with 32768.
  destruct (Z.gtb_spec (Z.abs v) (32768 - 1)); [discriminate|].
  destruct (Z.ltb_spec v 0); intros [= <-]; [|lia].
  change 65536 with (2 ^ 16). apply lor_below; change (2 ^ 16) with 65536; lia.
Qed.

(** C2 (amended): with sign bit index 14 the round trip
    [sts_tohost (sts_toscs v 14) 14 = v] holds for every [v] in
    [-16383, 16383], and for every [v] outside that range [sts_toscs] fails
    with [ValueOutOfRange], which fires exactly when abs(v) > (1<<14)-1.
    With sign bit index 15, the index sts.py passes, the same holds on
    [-32767, 32767] and the encoded value is a 16-bit word. *)
Theorem sts_toscs_tohost_roundtrip (v : Z) :
  (-16383 <= v <= 16383 ->
     exists raw, sts_toscs v 14 = Ok raw /\ sts_tohost raw 14 = v) /\
  (~ -16383 <= v <= 16383 -> sts_toscs v 14 = Raise ValueOutOfRange) /\
  (sts_toscs v 14 = Raise ValueOutOfRange <-> Z.abs v > Z.shiftl 1 14 - 1) /\
  (-32767 <= v <= 32767 ->
     exists raw, sts_toscs v 15 = Ok raw /\ sts_tohost raw 15 = v /\
                 0 <= raw < 65536) /\
  (~ -32767 <= v <= 32767 -> sts_toscs v 15 = Raise ValueOutOfRange).
Proof.
  repeat split.
  - intros Hv. apply (signed_roundtrip_general 14); [lia|].
    change (2 ^ 14) with 16384. lia.
  - intros Hv. apply sts_toscs_out_of_range; [lia|].
    change (2 ^ 14) with 16384. lia.
  - intros Hv. apply sts_toscs_out_of_range in Hv; [|lia]. exact Hv.
  - intros Hv. apply sts_toscs_out_of_range; [lia|]. exact Hv.
  - intros Hv.
    destruct (signed_roundtrip_general 15 ltac:(lia) v) as (raw & Henc & Hdec).
    { change (2 ^ 15) with 32768. lia. }
    exists raw. split; [exact Henc|]. split; [exact Hdec|].
    eapply sts_toscs_word; eassumption.
  - intros Hv. apply sts_toscs_out_of_range; [lia|].
    change (2 ^ 15) with 32768. lia.
Qed.

Lemma sts_toscs_tohost_roundtrip_witness :
  (exists raw, sts_toscs (-5) 14 = Ok raw /\ sts_tohost raw 14 = -5) /\
  sts_toscs 20000 14 = Raise ValueOutOfRange /\
  (exists raw, sts_toscs 20000 15 = Ok raw /\ sts_tohost raw 15 = 20000 /\
               0 <= raw < 65536) /\
  sts_toscs 40000 15 = Raise ValueOutOfRange.
Proof.
  split; [|split; [|split]].
  - apply (proj1 (sts_toscs_tohost_roundtrip (-5))). lia.
  - apply (proj1 (proj2 (sts_toscs_tohost_roundtrip 20000))). lia.
  - apply (proj1 (proj2 (proj2 (proj2 (sts_toscs_tohost_roundtrip 20000))))).
    lia.
  - apply (proj2 (proj2 (proj2 (proj2 (sts_toscs_tohost_roundtrip 40000))))).
    lia.
Defined.

(** ** Current and load: the two one-byte reads *)

(** Whatever the two reads answer, the result handed back on failure is the
    one of the low-byte read. *)
Lemma ReadCurrent_result device s sts_id :
  let lo := read1ByteTxRx device sts_id STS_PRESENT_CURRENT_L s in
  let hi := read1ByteTxRx device sts_id STS_PRESENT_CURRENT_H lo.2 in
  (evalM (ReadCurrent device sts_id) s).1.2 =
    if bool_decide (lo.1.1.2 = Success) && bool_decide (hi.1.1.2 = Success)
    then Success else lo.1.1.2.
Proof.
  handler_unfold. cbn.
  destruct (bool_decide _ && bool_decide _); reflexivity.
Qed.

Lemma ReadLoad_result device s sts_id :
  let lo := read1ByteTxRx device sts_id STS_PRESENT_LOAD_L s in
  let hi := read1ByteTxRx device sts_id STS_PRESENT_LOAD_H lo.2 in
  (evalM (ReadLoad device sts_id) s).1.2 =
    if bool_decide (lo.1.1.2 = Success) && bool_decide (hi.1.1.2 = Success)
    then Success else lo.1.1.2.
Proof.
  handler_unfold. cbn.
  destruct (bool_decide _ && bool_decide _); reflexivity.
Qed.

(** C3 fails on the code: when the low-byte read succeeds and the high-byte
    read times out, [ReadCurrent] and [ReadLoad] return no value together
    with [COMM_SUCCESS]; the [RxTimeout] of the second read is dropped. *)
Theorem ReadCurrent_drops_high_byte_error :
  let dev := device_high_byte_timeout in
  let after_lo := execM (read1ByteTxRx dev 1 STS_PRESENT_CURRENT_L) __init__ in
  let after_lo' := execM (read1ByteTxRx dev 1 STS_PRESENT_LOAD_L) __init__ in
  evalM (read1ByteTxRx dev 1 STS_PRESENT_CURRENT_H) after_lo = (0, RxTimeout, 0) /\
  evalM (ReadCurrent dev 1) __init__ = (None, Success, 0) /\
  evalM (read1ByteTxRx dev 1 STS_PRESENT_LOAD_H) after_lo' = (0, RxTimeout, 0) /\
  evalM (ReadLoad dev 1) __init__ = (None, Success, 0).
Proof. repeat split. Qed.

(** ** Position writes *)

Lemma txRx_log device r s :
  port_log (execM (txRx device r) s) = port_log s ++ [r].
Proof. reflexivity. Qed.

Lemma sent_app s s' l : port_log s' = port_log s ++ l -> sent s s' = l.
Proof. intros E. unfold sent. rewrite E. apply drop_app_length. Qed.

Example WritePosEx_on_the_wire :
  port_log (execM (WritePosEx (fun _ _ => mkResponse [] Success 0) 3 2048 1000 50)
                  __init__)
  = [ReqWrite WriteData 3 41 7 [50; 0; 8; 0; 0; 232; 3]].
Proof. reflexivity. Qed.

(** C4: for every target id, position, speed and acc, [WritePosEx] puts
    exactly one request on the bus, a [WriteData] to that id starting at
    address 41 ([STS_ACC]) whose parameter block is the 7 bytes
    [acc, lobyte(position), hibyte(position), 0, 0, lobyte(speed),
    hibyte(speed)], in that order; it returns the engine's result for that
    request and leaves the sync-write buffer alone. *)
Theorem WritePosEx_single_write device s sts_id position speed acc :
  let req := ReqWrite WriteData sts_id 41 7
               [acc; sts_lobyte position; sts_hibyte position; 0; 0;
                sts_lobyte speed; sts_hibyte speed] in
  let m := WritePosEx device sts_id position speed acc in
  emitted m s = [req] /\
  port_log (execM m s) = port_log s ++ [req] /\
  length (request_payload req) = 7%nat /\
  groupSyncWrite (execM m s) = groupSyncWrite s /\
  evalM m s = (rx_result (device (port_log s) req),
               rx_error (device (port_log s) req)).
Proof.
  cbv zeta. repeat split.
  apply sent_app. reflexivity.
Qed.

(** C5: for every target id, position, speed and acc, [RegWritePosEx] hands
    the engine the same 7-byte block at the same start address 41 as
    [WritePosEx] does for these arguments; the two requests differ only in
    the instruction, [RegWrite] against [WriteData]. *)
Theorem RegWritePosEx_same_block device s sts_id position speed acc :
  let w := WritePosEx device sts_id position speed acc in
  let r := RegWritePosEx device sts_id position speed acc in
  emitted w s = [ReqWrite WriteData sts_id 41 7 (pos_block position speed acc)] /\
  emitted r s = [ReqWrite RegWrite sts_id 41 7 (pos_block position speed acc)] /\
  emitted r s = map (with_instruction RegWrite) (emitted w s) /\
  emitted w s = map (with_instruction WriteData) (emitted r s) /\
  map request_instruction (emitted w s) = [WriteData] /\
  map request_instruction (emitted r s) = [RegWrite] /\
  groupSyncWrite (execM r s) = groupSyncWrite (execM w s).
Proof.
  cbv zeta.
  assert (Hw : emitted (WritePosEx device sts_id position speed acc) s
               = [ReqWrite WriteData sts_id 41 7 (pos_block position speed acc)])
    by (apply sent_app; reflexivity).
  assert (Hr : emitted (RegWritePosEx device sts_id position speed acc) s
               = [ReqWrite RegWrite sts_id 41 7 (pos_block position speed acc)])
    by (apply sent_app; reflexivity).
  rewrite Hw, Hr. repeat split.
Qed.

(** ** Combined position and speed read *)

Lemma sts_loword_makedword (a b : Z) :
  sts_loword (sts_makedword a b) = Z.land a 65535.
Proof.
  unfold sts_loword, sts_makedword. apply Z.bits_inj'. intros n Hn.
  rewrite !Z.land_spec, Z.lor_spec, Z.land_spec, Z.shiftl_spec by lia.
  change 65535 with (Z.ones 16).
  destruct (Z.lt_ge_cases n 16).
  - rewrite (Z.testbit_neg_r _ (n - 16)) by lia.
    rewrite orb_false_r, <- andb_assoc, andb_diag. reflexivity.
  - rewrite Z.ones_spec_high by lia. rewrite !andb_false_r. reflexivity.
Qed.

Lemma sts_hiword_makedword (a b : Z) :
  sts_hiword (sts_makedword a b) = Z.land b 65535.
Proof.
  unfold sts_hiword, sts_makedword. apply Z.bits_inj'. intros n Hn.
  rewrite !Z.land_spec, Z.shiftr_spec, Z.lor_spec, Z.land_spec, Z.shiftl_spec by lia.
  change 65535 with (Z.ones 16).
  destruct (Z.lt_ge_cases n 16).
  - rewrite (Z.ones_spec_high 16 (n + 16)) by lia.
    replace (n + 16 - 16) with n by lia.
    rewrite andb_false_r, orb_false_l, Z.land_spec, <- andb_assoc, andb_diag.
    reflexivity.
  - rewrite (Z.ones_spec_high 16 n) by lia. rewrite !andb_false_r. reflexivity.
Qed.

Lemma land_word_id (w : Z) : 0 <= w < 65536 -> Z.land w 65535 = w.
Proof.
  intros Hw. change 65535 with (Z.ones 16). rewrite Z.land_ones by lia.
  apply Z.mod_small. exact Hw.
Qed.

Example ReadPosSpeed_registers :
  let regs := fun (_ a : Z) =>
    if a =? 56 then 0x10 else if a =? 57 then 0x82
    else if a =? 58 then 0x2C else if a =? 59 then 0x01 else 0 in
  evalM (ReadPosSpeed (register_device regs) 1) __init__ = (-528, 300, Success, 0).
Proof. reflexivity. Qed.

Lemma ReadPosSpeed_words device s sts_id :
  let rx := device (port_log s) (ReqRead sts_id 56 4) in
  let b k := nth k (rx_data rx) 0 in
  evalM (ReadPosSpeed device sts_id) s =
    (sts_tohost (sts_makeword (b 0%nat) (b 1%nat)) 15,
     sts_tohost (sts_makeword (b 2%nat) (b 3%nat)) 15,
     rx_result rx, rx_error rx).
Proof.
  handler_unfold. cbn.
  rewrite sts_loword_makedword, sts_hiword_makedword.
  rewrite !land_word_id by apply sts_makeword_range. reflexivity.
Qed.

(** C6: for every target id, [ReadPosSpeed] performs a single 4-byte read
    starting at address 56 ([STS_PRESENT_POSITION_L]); its position is the
    sign-magnitude decode of the low 16-bit word and its speed the decode of
    the high 16-bit word of the value read, and on a servo with given
    register contents these are the position [ReadPos] and the speed
    [ReadSpeed] decode from the same registers. *)
Theorem ReadPosSpeed_single_read :
  (forall device s sts_id,
     let m := ReadPosSpeed device sts_id in
     let dword := (evalM (read4ByteTxRx device sts_id 56) s).1.1 in
     emitted m s = [ReqRead sts_id 56 4] /\
     (evalM m s).1.1.1 = sts_tohost (sts_loword dword) 15 /\
     (evalM m s).1.1.2 = sts_tohost (sts_hiword dword) 15) /\
  (forall regs s sts_id,
     let dev := register_device regs in
     (evalM (ReadPosSpeed dev sts_id) s).1.1.1 = (evalM (ReadPos dev sts_id) s).1.1 /\
     (evalM (ReadPosSpeed dev sts_id) s).1.1.2 = (evalM (ReadSpeed dev sts_id) s).1.1 /\
     (evalM (ReadPosSpeed dev sts_id) s).1.1.1 =
       sts_tohost (sts_makeword (regs sts_id 56) (regs sts_id 57)) 15 /\
     (evalM (ReadPosSpeed dev sts_id) s).1.1.2 =
       sts_tohost (sts_makeword (regs sts_id 58) (regs sts_id 59)) 15).
Proof.
  split.
  - intros device s sts_id. cbv zeta. repeat split.
    apply sent_app. reflexivity.
  - intros regs s sts_id. cbv zeta.
    rewrite ReadPosSpeed_words. cbn. repeat split.
Qed.

(** ** The sync-write buffer of the handler *)

Lemma buffer_inv_init : buffer_inv (groupSyncWrite __init__).
Proof.
  repeat split. intros i blk H. cbn in H. rewrite lookup_empty in H.
  discriminate H.
Qed.

Lemma addParam_inv i d g :
  buffer_inv g -> buffer_inv (GroupSyncWrite.addParam i d g).2.
Proof.
  intros (Ha & Hl & Hb). unfold GroupSyncWrite.addParam.
  destruct (Z.eqb_spec (Z.of_nat (length d)) (GroupSyncWrite.data_length g))
    as [Hlen|Hlen]; cbn [negb]; [|repeat split; assumption].
  destruct (GroupSyncWrite.data_dict g !! i) eqn:Hi; [repeat split; assumption|].
  repeat split; cbn; try assumption.
  intros j blk. rewrite lookup_insert. case_decide.
  - intros [= <-]. lia.
  - apply Hb.
Qed.

Lemma removeParam_inv i g :
  buffer_inv g -> buffer_inv (GroupSyncWrite.removeParam i g).
Proof.
  intros (Ha & Hl & Hb). repeat split; cbn; try assumption.
  intros j blk. rewrite lookup_delete. case_decide; [discriminate|apply Hb].
Qed.

Lemma clearParam_inv g :
  buffer_inv g -> buffer_inv (GroupSyncWrite.clearParam g).
Proof.
  intros (Ha & Hl & Hb). repeat split; cbn; try assumption.
  intros j blk. rewrite lookup_empty. discriminate.
Qed.

Lemma txPacket_buffer device s :
  groupSyncWrite (execM (txPacket device) s) = groupSyncWrite s.
Proof.
  unfold execM, txPacket.
  destruct (map_to_list _); reflexivity.
Qed.

Lemma stsStep_buffer device c s :
  groupSyncWrite (stsStep device c s) =
    match c with
    | CallSyncWritePosEx i p v a =>
        (GroupSyncWrite.addParam i (pos_block p v a) (groupSyncWrite s)).2
    | _ => groupSyncWrite s
    end.
Proof.
  destruct c; try reflexivity; unfold stsStep.
  - handler_unfold. cbn. destruct (bool_decide _ && bool_decide _); reflexivity.
  - handler_unfold. cbn. destruct (bool_decide _ && bool_decide _); reflexivity.
  - unfold execM, SyncWritePosEx, pos_block.
    destruct (GroupSyncWrite.addParam _ _ _); reflexivity.
  - unfold execM, WriteSpec. destruct (sts_toscs speed 15); reflexivity.
Qed.

Lemma step_inv device c s :
  buffer_inv (groupSyncWrite s) -> buffer_inv (groupSyncWrite (step device c s)).
Proof.
  intros H. destruct c as [c|c]; cbn [step].
  - rewrite stsStep_buffer. destruct c; try assumption.
    apply addParam_inv. exact H.
  - destruct c; cbn [bufferStep groupSyncWrite].
    + apply addParam_inv. exact H.
    + apply removeParam_inv. exact H.
    + apply clearParam_inv. exact H.
    + rewrite txPacket_buffer. exact H.
Qed.

Lemma fold_step_inv device cs s :
  buffer_inv (groupSyncWrite s) ->
  buffer_inv (groupSyncWrite (fold_left (fun s c => step device c s) cs s)).
Proof.
  revert s. induction cs as [|c cs IH]; intros s H; cbn [fold_left].
  - exact H.
  - apply IH, step_inv, H.
Qed.

Lemma run_inv device cs : buffer_inv (groupSyncWrite (run device cs)).
Proof. apply fold_step_inv, buffer_inv_init. Qed.

Lemma pos_block_length position speed acc :
  Z.of_nat (length (pos_block position speed acc)) = 7.
Proof. reflexivity. Qed.

(** On a 7-byte buffer [SyncWritePosEx] reduces to the duplicate test. *)
Lemma SyncWritePosEx_cases sts_id position speed acc s :
  GroupSyncWrite.data_length (groupSyncWrite s) = 7 ->
  SyncWritePosEx sts_id position speed acc s =
    match GroupSyncWrite.data_dict (groupSyncWrite s) !! sts_id with
    | Some _ => (Raise DuplicateTarget, s)
    | None =>
        (Ok tt,
         mkSts (port_log s)
           (GroupSyncWrite.mk (GroupSyncWrite.start_address (groupSyncWrite s)) 7
              (<[sts_id := pos_block position speed acc]>
                 (GroupSyncWrite.data_dict (groupSyncWrite s)))))
    end.
Proof.
  intros Hl. unfold SyncWritePosEx, GroupSyncWrite.addParam.
  fold (pos_block position speed acc).
  rewrite pos_block_length, Hl. cbn [Z.eqb Pos.eqb negb].
  destruct (GroupSyncWrite.data_dict (groupSyncWrite s) !! sts_id);
    [destruct s|]; reflexivity.
Qed.

(** A first [SyncWritePosEx] stages its block; a second one for the same id
    is refused and the first block stays. *)
Lemma SyncWritePosEx_twice device cs sts_id p v a p' v' a' :
  let s := run device cs in
  let s1 := execM (SyncWritePosEx sts_id p v a) s in
  evalM (SyncWritePosEx sts_id p v a) s = Ok tt ->
  GroupSyncWrite.data_dict (groupSyncWrite s1) !! sts_id = Some (pos_block p v a) /\
  SyncWritePosEx sts_id p' v' a' s1 = (Raise DuplicateTarget, s1).
Proof.
  cbv zeta. pose proof (run_inv device cs) as (_ & Hl & _).
  unfold evalM, execM. rewrite SyncWritePosEx_cases by exact Hl.
  destruct (GroupSyncWrite.data_dict _ !! sts_id) eqn:E; [discriminate|].
  intros _. cbn [fst snd groupSyncWrite GroupSyncWrite.data_dict].
  split; [apply lookup_insert_eq|].
  rewrite SyncWritePosEx_cases by reflexivity.
  cbn [groupSyncWrite GroupSyncWrite.data_dict].
  rewrite lookup_insert_eq. reflexivity.
Qed.

(** C7: for every target id already staged in the handler's sync-write
    buffer, a further [SyncWritePosEx] for that id fails with
    [DuplicateTarget] and changes nothing: the 7-byte block staged before
    is still the one staged for that id. *)
Theorem SyncWritePosEx_duplicate device cs sts_id position speed acc blk :
  let s := run device cs in
  let m := SyncWritePosEx sts_id position speed acc in
  GroupSyncWrite.data_dict (groupSyncWrite s) !! sts_id = Some blk ->
  evalM m s = Raise DuplicateTarget /\
  execM m s = s /\
  GroupSyncWrite.data_dict (groupSyncWrite (execM m s)) !! sts_id = Some blk /\
  length blk = 7%nat.
Proof.
  cbv zeta. intros Hst.
  pose proof (run_inv device cs) as (_ & Hl & Hb).
  unfold evalM, execM. rewrite SyncWritePosEx_cases by exact Hl.
  rewrite Hst. cbn [fst snd]. repeat split; [exact Hst|].
  eapply Hb, Hst.
Qed.

Lemma SyncWritePosEx_duplicate_witness :
  let s := run device_ack [inl (CallSyncWritePosEx 1 2048 1000 50)] in
  let m := SyncWritePosEx 1 (-7) 20 5 in
  evalM m s = Raise DuplicateTarget /\
  execM m s = s /\
  GroupSyncWrite.data_dict (groupSyncWrite (execM m s)) !! 1
    = Some [50; 0; 8; 0; 0; 232; 3] /\
  length [50; 0; 8; 0; 0; 232; 3] = 7%nat.
Proof.
  apply (SyncWritePosEx_duplicate device_ack
           [inl (CallSyncWritePosEx 1 2048 1000 50)] 1 (-7) 20 5
           [50; 0; 8; 0; 0; 232; 3]).
  vm_compute. reflexivity.
Defined.

(** C9: the handler's sync-write buffer is created by [__init__] with start
    address 41 ([STS_ACC]) and block length 7 and keeps both through every
    sequence of calls; [SyncWritePosEx] always stages a block of exactly 7
    bytes, so it never fails with [LengthMismatch]: it either stores the
    block or reports a duplicate target. *)
Theorem SyncWritePosEx_never_LengthMismatch device cs sts_id position speed acc :
  let s := run device cs in
  let r := evalM (SyncWritePosEx sts_id position speed acc) s in
  groupSyncWrite __init__ = GroupSyncWrite.new 41 7 /\
  GroupSyncWrite.start_address (groupSyncWrite s) = 41 /\
  GroupSyncWrite.data_length (groupSyncWrite s) = 7 /\
  length (pos_block position speed acc) = 7%nat /\
  r <> Raise LengthMismatch /\
  (r = Ok tt \/ r = Raise DuplicateTarget).
Proof.
  cbv zeta. pose proof (run_inv device cs) as (Ha & Hl & _).
  unfold evalM. rewrite SyncWritePosEx_cases by exact Hl.
  repeat split; try assumption;
    destruct (GroupSyncWrite.data_dict _ !! sts_id); cbn;
    first [discriminate | (left; reflexivity) | (right; reflexivity)].
Qed.

(** ** The commit trigger *)

Lemma not_action_is_broadcast r :
  request_instruction r <> Action -> action_is_broadcast r.
Proof. intros H E. contradiction. Qed.

Lemma stsStep_log device c s :
  exists l, port_log (stsStep device c s) = port_log s ++ l /\
            Forall action_is_broadcast l.
Proof.
  destruct c; unfold stsStep;
    try (eexists [_]; split; [reflexivity|];
         repeat constructor; try discriminate).
  - exists [ReqRead sts_id 69 1; ReqRead sts_id 70 1]. split.
    + handler_unfold. cbn.
      destruct (bool_decide _ && bool_decide _); cbn;
        rewrite <- app_assoc; reflexivity.
    + repeat constructor; apply not_action_is_broadcast; discriminate.
  - exists [ReqRead sts_id 60 1; ReqRead sts_id 61 1]. split.
    + handler_unfold. cbn.
      destruct (bool_decide _ && bool_decide _); cbn;
        rewrite <- app_assoc; reflexivity.
    + repeat constructor; apply not_action_is_broadcast; discriminate.
  - exists []. split; [|constructor]. rewrite app_nil_r.
    unfold execM, SyncWritePosEx.
    destruct (GroupSyncWrite.addParam _ _ _); reflexivity.
  - unfold execM, WriteSpec. destruct (sts_toscs speed 15).
    + eexists [_]. split; [reflexivity|].
      constructor; [apply not_action_is_broadcast; discriminate | constructor].
    + exists []. split; [|constructor]. rewrite app_nil_r. reflexivity.
Qed.

Lemma bufferStep_log device c s :
  exists l, port_log (bufferStep device c s) = port_log s ++ l /\
            Forall action_is_broadcast l.
Proof.
  destruct c; cbn [bufferStep port_log];
    try (exists []; split; [rewrite app_nil_r; reflexivity | constructor]).
  unfold execM, txPacket.
  destruct (map_to_list _) as [|b bs].
  - exists []. split; [rewrite app_nil_r; reflexivity | constructor].
  - eexists [_]. split; [reflexivity|].
    constructor; [apply not_action_is_broadcast; discriminate | constructor].
Qed.

Lemma step_log device c s :
  exists l, port_log (step device c s) = port_log s ++ l /\
            Forall action_is_broadcast l.
Proof. destruct c; [apply stsStep_log | apply bufferStep_log]. Qed.

Lemma fold_step_log device cs s :
  Forall action_is_broadcast (port_log s) ->
  Forall action_is_broadcast
    (port_log (fold_left (fun s c => step device c s) cs s)).
Proof.
  revert s. induction cs as [|c cs IH]; intros s H; cbn [fold_left].
  - exact H.
  - apply IH. destruct (step_log device c s) as (l & -> & Hl).
    apply Forall_app. split; assumption.
Qed.

(** C8: every call of [RegAction] transmits one [Action] request with no
    parameter bytes, addressed to the broadcast id; and whatever methods of
    the wrapper a client calls, every [Action] request they put on the bus
    is that broadcast one. *)
Theorem RegAction_broadcast_only :
  (forall device s,
     emitted (RegAction device) s = [ReqAction BROADCAST_ID] /\
     request_instruction (ReqAction BROADCAST_ID) = Action /\
     request_payload (ReqAction BROADCAST_ID) = [] /\
     request_target (ReqAction BROADCAST_ID) = BROADCAST_ID /\
     evalM (RegAction device) s
       = rx_result (device (port_log s) (ReqAction BROADCAST_ID))) /\
  (forall device c s r,
     r ∈ sent s (stsStep device c s) ->
     request_instruction r = Action ->
     request_target r = BROADCAST_ID /\ request_payload r = []) /\
  (forall device cs r,
     r ∈ port_log (run device cs) ->
     request_instruction r = Action ->
     request_target r = BROADCAST_ID /\ request_payload r = []).
Proof.
  split; [|split].
  - intros device s. repeat split. apply sent_app. reflexivity.
  - intros device c s r Hin Hr.
    destruct (stsStep_log device c s) as (l & E & Hl).
    rewrite (sent_app _ _ _ E) in Hin.
    rewrite Forall_forall in Hl. destruct (Hl r Hin Hr) as (? & ? & _).
    split; assumption.
  - intros device cs r Hin Hr.
    pose proof (fold_step_log device cs __init__ ltac:(constructor)) as Hl.
    rewrite Forall_forall in Hl. destruct (Hl r Hin Hr) as (? & ? & _).
    split; assumption.
Qed.

Lemma RegAction_broadcast_only_witness :
  request_target (ReqAction 254) = BROADCAST_ID /\
  request_payload (ReqAction 254) = [].
Proof.
  apply (proj2 (proj2 RegAction_broadcast_only) device_ack
           [inl (CallSyncWritePosEx 1 2048 1000 50); inl CallRegAction]
           (ReqAction 254)).
  - vm_compute. apply list_elem_of_In. left. reflexivity.
  - reflexivity.
Defined.

(** ** Signed arguments of the position writes *)

Lemma lobyte_hibyte_value (w : Z) :
  sts_lobyte w + 256 * sts_hibyte w = w mod 65536.
Proof.
  unfold sts_lobyte, sts_hibyte.
  change 255 with (Z.ones 8). rewrite !Z.land_ones, Z.shiftr_div_pow2 by lia.
  change (2 ^ 8) with 256. change 65536 with (256 * 256).
  rewrite Z.rem_mul_r by lia. reflexivity.
Qed.

Example WritePosEx_minus_one :
  port_log (execM (WritePosEx device_ack 1 (-1) (-1) 0) __init__)
    = [ReqWrite WriteData 1 41 7 [0; 255; 255; 0; 0; 255; 255]] /\
  port_log (execM (WriteSpec device_ack 1 (-1) 0) __init__)
    = [ReqWrite WriteData 1 41 7 [0; 0; 0; 0; 0; 1; 128]].
Proof. split; reflexivity. Qed.

Lemma sts_toscs_15_negative (v : Z) :
  -32767 <= v < 0 -> sts_toscs v 15 = Ok (32768 - v).
Proof.
  intros Hv. unfold sts_toscs. change (Z.shiftl 1 15) with (2 ^ 15).
  change (2 ^ 15 - 1) with 32767.
  destruct (Z.gtb_spec (Z.abs v) 32767); [lia|].
  destruct (Z.ltb_spec v 0); [|lia]. f_equal.
  assert (Hdisj : Z.land (- v) (2 ^ 15) = 0).
  { apply Z.bits_inj'. intros n Hn.
    rewrite Z.land_spec, Z.bits_0, Z.pow2_bits_eqb by lia.
    destruct (Z.eqb_spec 15 n) as [<-|_]; [|apply andb_false_r].
    rewrite testbit_below; [reflexivity | lia |].
    change (2 ^ 15) with 32768. lia. }
  rewrite <- Z.lxor_lor by exact Hdisj.
  rewrite <- Z.add_nocarry_lxor by exact Hdisj.
  change (2 ^ 15) with 32768. lia.
Qed.

Lemma sts_toscs_15_nonneg (v : Z) :
  0 <= v <= 32767 -> sts_toscs v 15 = Ok v.
Proof.
  intros Hv. unfold sts_toscs. change (Z.shiftl 1 15 - 1) with 32767.
  destruct (Z.gtb_spec (Z.abs v) 32767); [lia|].
  destruct (Z.ltb_spec v 0); [lia|]. reflexivity.
Qed.

(** C10: [WritePosEx], [RegWritePosEx] and [SyncWritePosEx] split the
    caller's position and speed with [sts_lobyte]/[sts_hibyte] as they are,
    without [sts_toscs]: the first two send, and the third stages for every
    id not staged yet, the block [acc, lobyte(position), hibyte(position),
    0, 0, lobyte(speed), hibyte(speed)].  [WriteSpec] first encodes its
    speed with [sts_toscs] at sign bit index 15 (a negative speed becomes
    32768 - speed) and splits the encoded word.  So a negative position or
    speed given to [WritePosEx] goes out as the low 16 bits of its two's
    complement, which for every negative value of [-32767, -1] other than
    -16384 are not the bytes of its sign-magnitude encoding. *)
Theorem position_writes_skip_sts_toscs :
  (forall device s sts_id position speed acc,
     let blk := [acc; sts_lobyte position; sts_hibyte position; 0; 0;
                 sts_lobyte speed; sts_hibyte speed] in
     emitted (WritePosEx device sts_id position speed acc) s
       = [ReqWrite WriteData sts_id 41 7 blk] /\
     emitted (RegWritePosEx device sts_id position speed acc) s
       = [ReqWrite RegWrite sts_id 41 7 blk] /\
     map request_payload (emitted (WritePosEx device sts_id position speed acc) s)
       = [blk] /\
     map request_payload (emitted (RegWritePosEx device sts_id position speed acc) s)
       = [blk] /\
     (evalM (SyncWritePosEx sts_id position speed acc) s = Ok tt ->
      GroupSyncWrite.data_dict
        (groupSyncWrite (execM (SyncWritePosEx sts_id position speed acc) s))
        !! sts_id = Some blk)) /\
  (forall device cs sts_id position speed acc,
     let s := run device cs in
     let m := SyncWritePosEx sts_id position speed acc in
     GroupSyncWrite.data_dict (groupSyncWrite s) !! sts_id = None ->
     evalM m s = Ok tt /\
     GroupSyncWrite.data_dict (groupSyncWrite (execM m s)) !! sts_id =
       Some [acc; sts_lobyte position; sts_hibyte position; 0; 0;
             sts_lobyte speed; sts_hibyte speed]) /\
  (forall device s sts_id speed acc,
     -32767 <= speed <= 32767 ->
     let enc := if speed <? 0 then 32768 - speed else speed in
     sts_toscs speed 15 = Ok enc /\
     emitted (WriteSpec device sts_id speed acc) s
       = [ReqWrite WriteData sts_id 41 7
            [acc; 0; 0; 0; 0; sts_lobyte enc; sts_hibyte enc]]) /\
  (forall v,
     -32767 <= v < 0 ->
     sts_toscs v 15 = Ok (32768 - v) /\
     sts_lobyte v + 256 * sts_hibyte v = 65536 + v /\
     sts_lobyte (32768 - v) + 256 * sts_hibyte (32768 - v) = 32768 - v /\
     (v <> -16384 ->
      (sts_lobyte v, sts_hibyte v)
      <> (sts_lobyte (32768 - v), sts_hibyte (32768 - v)))).
Proof.
  split; [|split; [|split]].
  - intros device s sts_id position speed acc. cbv zeta.
    assert (Hw : emitted (WritePosEx device sts_id position speed acc) s
                 = [ReqWrite WriteData sts_id 41 7 (pos_block position speed acc)])
      by (apply sent_app; reflexivity).
    assert (Hr : emitted (RegWritePosEx device sts_id position speed acc) s
                 = [ReqWrite RegWrite sts_id 41 7 (pos_block position speed acc)])
      by (apply sent_app; reflexivity).
    rewrite Hw, Hr. do 4 (split; [reflexivity|]).
    unfold evalM, execM, SyncWritePosEx, GroupSyncWrite.addParam.
    destruct (negb _); [discriminate|].
    destruct (GroupSyncWrite.data_dict _ !! sts_id); [discriminate|].
    intros _. cbn. apply lookup_insert_eq.
  - intros device cs sts_id position speed acc. cbv zeta. intros Hfree.
    pose proof (run_inv device cs) as (_ & Hl & _).
    unfold evalM, execM. rewrite SyncWritePosEx_cases by exact Hl.
    rewrite Hfree. cbn [fst snd groupSyncWrite GroupSyncWrite.data_dict].
    split; [reflexivity | apply lookup_insert_eq].
  - intros device s sts_id speed acc Hv. cbv zeta.
    assert (Henc : sts_toscs speed 15
                   = Ok (if speed <? 0 then 32768 - speed else speed)).
    { destruct (Z.ltb_spec speed 0).
      - apply sts_toscs_15_negative. lia.
      - apply sts_toscs_15_nonneg. lia. }
    split; [exact Henc|].
    unfold emitted, WriteSpec. rewrite Henc.
    erewrite sent_app by reflexivity. reflexivity.
  - intros v Hv.
    assert (Hv16 : sts_lobyte v + 256 * sts_hibyte v = 65536 + v).
    { rewrite lobyte_hibyte_value.
      rewrite <- (Z.mod_add v 1 65536) by lia.
      rewrite Z.mod_small; lia. }
    assert (He16 : sts_lobyte (32768 - v) + 256 * sts_hibyte (32768 - v)
                   = 32768 - v).
    { rewrite lobyte_hibyte_value, Z.mod_small; lia. }
    split; [apply sts_toscs_15_negative; exact Hv|].
    split; [exact Hv16|]. split; [exact He16|].
    intros Hne [= Hlo Hhi]. rewrite Hlo, Hhi in Hv16. lia.
Qed.

Lemma position_writes_skip_sts_toscs_witness :
  (evalM (SyncWritePosEx 1 (-1) (-2) 50) (run device_ack []) = Ok tt /\
   GroupSyncWrite.data_dict
     (groupSyncWrite (execM (SyncWritePosEx 1 (-1) (-2) 50) (run device_ack [])))
     !! 1 = Some [50; sts_lobyte (-1); sts_hibyte (-1); 0; 0;
                  sts_lobyte (-2); sts_hibyte (-2)]) /\
  (sts_toscs (-1) 15 = Ok (if -1 <? 0 then 32768 - -1 else -1) /\
   emitted (WriteSpec device_ack 1 (-1) 50) __init__
     = [ReqWrite WriteData 1 41 7
          [50; 0; 0; 0; 0;
           sts_lobyte (if -1 <? 0 then 32768 - -1 else -1);
           sts_hibyte (if -1 <? 0 then 32768 - -1 else -1)]]) /\
  (sts_toscs (-1) 15 = Ok (32768 - -1) /\
   sts_lobyte (-1) + 256 * sts_hibyte (-1) = 65536 + -1 /\
   sts_lobyte (32768 - -1) + 256 * sts_hibyte (32768 - -1) = 32768 - -1 /\
   (-1 <> -16384 ->
    (sts_lobyte (-1), sts_hibyte (-1))
    <> (sts_lobyte (32768 - -1), sts_hibyte (32768 - -1)))).
Proof.
  split; [|split].
  - apply (proj1 (proj2 position_writes_skip_sts_toscs)
             device_ack [] 1 (-1) (-2) 50).
    vm_compute. reflexivity.
  - apply (proj1 (proj2 (proj2 position_writes_skip_sts_toscs))
             device_ack __init__ 1 (-1) 50).
    lia.
  - apply (proj2 (proj2 (proj2 position_writes_skip_sts_toscs)) (-1)).
    lia.
Defined.

(** ** Bus traffic of the wrapper as a whole *)

Lemma stsStep_trace device c s :
  port_log (stsStep device c s) = port_log s ++ call_requests c.
Proof.
  destruct c; unfold stsStep; try reflexivity.
  - handler_unfold. cbn.
    destruct (bool_decide _ && bool_decide _); cbn;
      rewrite <- app_assoc; reflexivity.
  - handler_unfold. cbn.
    destruct (bool_decide _ && bool_decide _); cbn;
      rewrite <- app_assoc; reflexivity.
  - cbn [call_requests]. rewrite app_nil_r.
    unfold execM, SyncWritePosEx.
    destruct (GroupSyncWrite.addParam _ _ _); reflexivity.
  - unfold execM, WriteSpec. cbn [call_requests].
    destruct (sts_toscs speed 15); [reflexivity|].
    rewrite app_nil_r. reflexivity.
Qed.

Lemma sts_eq (s s' : sts) :
  port_log s = port_log s' -> groupSyncWrite s = groupSyncWrite s' -> s = s'.
Proof. destruct s, s'. cbn. intros -> ->. reflexivity. Qed.

Lemma step_device_irrelevant d1 d2 c s : step d1 c s = step d2 c s.
Proof.
  destruct c as [c|c]; cbn [step].
  - apply sts_eq.
    + rewrite !stsStep_trace. reflexivity.
    + rewrite !stsStep_buffer. reflexivity.
  - destruct c; try reflexivity. cbn [bufferStep].
    unfold execM, txPacket. destruct (map_to_list _); reflexivity.
Qed.

(** X3: the state of the handler, and so everything it has put on the bus,
    does not depend on what the servos answered: no call is retried and no
    request is added or left out because of a result. *)
Theorem run_device_irrelevant d1 d2 cs : run d1 cs = run d2 cs.
Proof.
  unfold run. generalize __init__ as s.
  induction cs as [|c cs IH]; intros s; cbn [fold_left].
  - reflexivity.
  - rewrite (step_device_irrelevant d1 d2). apply IH.
Qed.

Lemma call_requests_ok c :
  Forall (fun r => wrapper_request_ok r = true) (call_requests c).
Proof.
  destruct c; cbn [call_requests];
    try (repeat constructor; fail).
  destruct (sts_toscs speed 15); repeat constructor.
Qed.

Lemma call_requests_target c :
  Forall (fun r => request_target r = call_target c) (call_requests c).
Proof.
  destruct c; cbn [call_requests];
    try (repeat constructor; fail).
  destruct (sts_toscs speed 15); repeat constructor.
Qed.

Lemma call_requests_length c : (length (call_requests c) <= 2)%nat.
Proof.
  destruct c; cbn [call_requests length]; try lia.
  destruct (sts_toscs speed 15); cbn; lia.
Qed.

Lemma fold_stsStep_ok device (cs : list StsCall) s :
  Forall (fun r => wrapper_request_ok r = true) (port_log s) ->
  Forall (fun r => wrapper_request_ok r = true)
    (port_log (fold_left (fun s c => step device c s) (map inl cs) s)).
Proof.
  revert s. induction cs as [|c cs IH]; intros s H; cbn [map fold_left].
  - exact H.
  - apply IH. cbn [step]. rewrite stsStep_trace.
    apply Forall_app. split; [exact H | apply call_requests_ok].
Qed.

(** X4: a method of the wrapper puts at most two requests on the bus, and
    each is well formed against the memory table: a read of 1, 2 or 4 bytes
    inside the read-only telemetry area 56..70, a WriteData or RegWrite
    whose length is the length of its data and whose registers lie in a
    read/write area, or the broadcast Action; no wrapper method sends a
    sync write.  The same holds for all traffic of any sequence of wrapper
    calls. *)
Theorem wrapper_requests_well_formed :
  (forall device c s,
     (length (sent s (stsStep device c s)) <= 2)%nat /\
     Forall (fun r => wrapper_request_ok r = true) (sent s (stsStep device c s))) /\
  (forall device (cs : list StsCall),
     Forall (fun r => wrapper_request_ok r = true)
       (port_log (run device (map inl cs)))).
Proof.
  split.
  - intros device c s.
    rewrite (sent_app _ _ _ (stsStep_trace device c s)).
    split; [apply call_requests_length | apply call_requests_ok].
  - intros device cs. apply fold_stsStep_ok. constructor.
Qed.

Lemma call_requests_silent c :
  if call_is_silent c then call_requests c = [] else call_requests c <> [].
Proof.
  destruct c; cbn [call_is_silent call_requests]; try discriminate;
    try reflexivity.
  destruct (Z.leb_spec (-32767) speed); destruct (Z.leb_spec speed 32767);
    cbn [andb negb].
  - destruct (sts_toscs_in_range 15 speed ltac:(lia)) as (enc & -> & _);
      [change (2 ^ 15) with 32768; lia | discriminate].
  - rewrite (proj2 (sts_toscs_out_of_range 15 speed ltac:(lia)));
      [reflexivity | change (2 ^ 15) with 32768; lia].
  - rewrite (proj2 (sts_toscs_out_of_range 15 speed ltac:(lia)));
      [reflexivity | change (2 ^ 15) with 32768; lia].
  - lia.
Qed.

(** X5: every request a method puts on the bus is addressed to the servo id
    the method was called with ([WriteID] talks to the current id, not the
    new one), and the one request of [RegAction] to the broadcast id.  So a
    method called with an id other than the broadcast id sends no broadcast
    request.  Every call does send a request, except [SyncWritePosEx] and a
    [WriteSpec] with a speed outside [-32767, 32767], which send none. *)
Theorem wrapper_requests_target device c s :
  Forall (fun r => request_target r = call_target c)
    (sent s (stsStep device c s)) /\
  (call_target c <> BROADCAST_ID ->
   Forall (fun r => request_target r <> BROADCAST_ID)
     (sent s (stsStep device c s))) /\
  (call_is_silent c = false -> sent s (stsStep device c s) <> []) /\
  (call_is_silent c = true -> sent s (stsStep device c s) = []) /\
  (c = CallRegAction -> sent s (stsStep device c s) = [ReqAction BROADCAST_ID]).
Proof.
  rewrite (sent_app _ _ _ (stsStep_trace device c s)).
  pose proof (call_requests_target c) as Ht.
  pose proof (call_requests_silent c) as Hs.
  split; [exact Ht|]. split; [|split; [|split]].
  - intros Hne. eapply Forall_impl; [exact Ht|].
    intros r Hr. cbn beta in Hr. rewrite Hr. exact Hne.
  - intros E. rewrite E in Hs. exact Hs.
  - intros E. rewrite E in Hs. exact Hs.
  - intros ->. reflexivity.
Qed.

Lemma wrapper_requests_target_witness :
  Forall (fun r => request_target r <> BROADCAST_ID)
    (sent __init__ (stsStep device_ack (CallWriteID 3 254) __init__)) /\
  sent __init__ (stsStep device_ack (CallWriteID 3 254) __init__) <> [] /\
  sent __init__ (stsStep device_ack (CallWriteSpec 3 40000 0) __init__) = [] /\
  sent __init__ (stsStep device_ack CallRegAction __init__)
    = [ReqAction BROADCAST_ID].
Proof.
  split; [|split; [|split]].
  - apply (proj1 (proj2 (wrapper_requests_target device_ack
                           (CallWriteID 3 254) __init__))).
    vm_compute. discriminate.
  - apply (proj1 (proj2 (proj2 (wrapper_requests_target device_ack
                                  (CallWriteID 3 254) __init__)))).
    reflexivity.
  - apply (proj1 (proj2 (proj2 (proj2 (wrapper_requests_target device_ack
                                         (CallWriteSpec 3 40000 0) __init__))))).
    reflexivity.
  - apply (proj2 (proj2 (proj2 (proj2 (wrapper_requests_target device_ack
                                         CallRegAction __init__))))).
    reflexivity.
Defined.

(** ** Current and load: what the two reads give *)

Lemma lor_shift_bytes (l h : Z) :
  0 <= l < 256 -> 0 <= h < 256 -> Z.lor (Z.shiftl h 8) l = l + 256 * h.
Proof.
  intros Hl Hh. rewrite Z.shiftl_mul_pow2 by lia. change (2 ^ 8) with 256.
  assert (Hdisj : Z.land (h * 256) l = 0).
  { apply Z.bits_inj'. intros n Hn. rewrite Z.land_spec, Z.bits_0.
    destruct (Z.lt_ge_cases n 8).
    - change 256 with (2 ^ 8). rewrite Z.mul_pow2_bits_low by lia. reflexivity.
    - rewrite (Z.bits_above_log2 l n); [apply andb_false_r | lia |].
      destruct (Z.eq_dec l 0) as [->|]; [cbn; lia|].
      apply Z.lt_le_trans with 8; [|lia].
      apply Z.log2_lt_pow2; [lia|]. change (2 ^ 8) with 256. lia. }
  rewrite <- Z.lxor_lor by exact Hdisj.
  rewrite <- Z.add_nocarry_lxor by exact Hdisj. lia.
Qed.

Lemma sts_makeword_bytes (l h : Z) :
  0 <= l < 256 -> 0 <= h < 256 -> sts_makeword l h = l + 256 * h.
Proof.
  intros Hl Hh. unfold sts_makeword.
  change 255 with (Z.ones 8). rewrite !Z.land_ones by lia.
  change (2 ^ 8) with 256. rewrite !Z.mod_small by lia.
  rewrite Z.lor_comm. apply lor_shift_bytes; assumption.
Qed.

(** X1: [ReadCurrent] and [ReadLoad] always perform both one-byte reads,
    low register first, also when the first one has failed; they return a
    value exactly when both reads report [COMM_SUCCESS], and otherwise
    [None] together with the result and error of the low-byte read. *)
Theorem ReadCurrent_ReadLoad_reads device s sts_id :
  let lo := evalM (read1ByteTxRx device sts_id STS_PRESENT_CURRENT_L) s in
  let hi := device (port_log s ++ [ReqRead sts_id 69 1]) (ReqRead sts_id 70 1) in
  let lo' := evalM (read1ByteTxRx device sts_id STS_PRESENT_LOAD_L) s in
  let hi' := device (port_log s ++ [ReqRead sts_id 60 1]) (ReqRead sts_id 61 1) in
  let c := evalM (ReadCurrent device sts_id) s in
  let l := evalM (ReadLoad device sts_id) s in
  emitted (ReadCurrent device sts_id) s = [ReqRead sts_id 69 1; ReqRead sts_id 70 1] /\
  emitted (ReadLoad device sts_id) s = [ReqRead sts_id 60 1; ReqRead sts_id 61 1] /\
  (is_Some c.1.1 <-> lo.1.2 = Success /\ rx_result hi = Success) /\
  (is_Some l.1.1 <-> lo'.1.2 = Success /\ rx_result hi' = Success) /\
  (c.1.1 = None -> c = (None, lo.1.2, lo.2)) /\
  (l.1.1 = None -> l = (None, lo'.1.2, lo'.2)).
Proof.
  cbv zeta.
  split; [|split].
  - apply sent_app. apply (stsStep_trace device (CallReadCurrent sts_id)).
  - apply sent_app. apply (stsStep_trace device (CallReadLoad sts_id)).
  - handler_unfold. cbn.
    split; [|split; [|split]].
    all: match goal with
         | |- context [bool_decide ?P && bool_decide ?Q] =>
             destruct (bool_decide_reflect P) as [Ha|Ha];
             destruct (bool_decide_reflect Q) as [Hb|Hb]
         end; cbn.
    all: try (split; [intros _; split; assumption | intros _; eexists; reflexivity]).
    all: try (split; [intros [x Hx]; discriminate Hx | intros [? ?]; contradiction]).
    all: try (intros Hn; discriminate Hn).
    all: try (intros _; reflexivity).
Qed.

Lemma ReadCurrent_ReadLoad_reads_witness :
  evalM (ReadCurrent device_high_byte_timeout 1) __init__
    = (None, Success, 0).
Proof.
  apply (proj1 (proj2 (proj2 (proj2 (proj2
           (ReadCurrent_ReadLoad_reads device_high_byte_timeout __init__ 1)))))).
  reflexivity.
Defined.

(** X2: when both one-byte reads succeed with the bytes [l] and [h],
    [ReadCurrent] and [ReadLoad] return the unsigned 16-bit word
    [l + 256*h] (no sign decoding is applied) with [COMM_SUCCESS] and
    error 0: the error bytes [el], [eh] the servo sent with the two answers
    are not reported. *)
Theorem ReadCurrent_ReadLoad_value device s sts_id l h el eh :
  0 <= l < 256 -> 0 <= h < 256 ->
  (device (port_log s) (ReqRead sts_id STS_PRESENT_CURRENT_L 1) = mkResponse [l] Success el ->
   device (port_log s ++ [ReqRead sts_id STS_PRESENT_CURRENT_L 1]) (ReqRead sts_id STS_PRESENT_CURRENT_H 1)
     = mkResponse [h] Success eh ->
   evalM (ReadCurrent device sts_id) s = (Some (l + 256 * h), Success, 0)) /\
  (device (port_log s) (ReqRead sts_id STS_PRESENT_LOAD_L 1) = mkResponse [l] Success el ->
   device (port_log s ++ [ReqRead sts_id STS_PRESENT_LOAD_L 1]) (ReqRead sts_id STS_PRESENT_LOAD_H 1)
     = mkResponse [h] Success eh ->
   evalM (ReadLoad device sts_id) s = (Some (l + 256 * h), Success, 0)) /\
  0 <= l + 256 * h <= 65535 /\
  l + 256 * h = sts_makeword l h.
Proof.
  intros Hl Hh. split; [|split; [|split]].
  - intros E1 E2. handler_unfold. cbn. rewrite E1, E2. cbn.
    rewrite lor_shift_bytes by assumption. reflexivity.
  - intros E1 E2. handler_unfold. cbn. rewrite E1, E2. cbn.
    rewrite lor_shift_bytes by assumption. reflexivity.
  - lia.
  - symmetry. apply sts_makeword_bytes; assumption.
Qed.

Lemma ReadCurrent_ReadLoad_value_witness :
  evalM (ReadCurrent device_word_0x0312 1) __init__ = (Some (18 + 256 * 3), Success, 0).
Proof.
  apply (proj1 (ReadCurrent_ReadLoad_value device_word_0x0312 __init__ 1
                  18 3 32 4 ltac:(lia) ltac:(lia))); reflexivity.
Defined.

(** ** Arguments outside the 16-bit range *)

Lemma sts_lobyte_range (w : Z) : 0 <= sts_lobyte w < 256.
Proof.
  unfold sts_lobyte. change 255 with (Z.ones 8). rewrite Z.land_ones by lia.
  apply Z.mod_pos_bound. lia.
Qed.

Lemma sts_hibyte_range (w : Z) : 0 <= sts_hibyte w < 256.
Proof.
  unfold sts_hibyte. change 255 with (Z.ones 8). rewrite Z.land_ones by lia.
  apply Z.mod_pos_bound. lia.
Qed.

Lemma bytes_mod_65536 (w : Z) :
  sts_lobyte (w mod 65536) = sts_lobyte w /\
  sts_hibyte (w mod 65536) = sts_hibyte w.
Proof.
  pose proof (lobyte_hibyte_value w) as E.
  pose proof (lobyte_hibyte_value (w mod 65536)) as E'.
  rewrite Z.mod_mod in E' by lia.
  pose proof (sts_lobyte_range w). pose proof (sts_hibyte_range w).
  pose proof (sts_lobyte_range (w mod 65536)).
  pose proof (sts_hibyte_range (w mod 65536)).
  lia.
Qed.

Lemma pos_block_mod position speed acc :
  pos_block (position mod 65536) (speed mod 65536) acc
  = pos_block position speed acc.
Proof.
  unfold pos_block.
  destruct (bytes_mod_65536 position) as [-> ->].
  destruct (bytes_mod_65536 speed) as [-> ->]. reflexivity.
Qed.

(** X6: the position writes do no range check: position and speed are cut
    to their low 16 bits, so arguments that agree modulo 65536 give the same
    call in every respect (request, result, state), and every position and
    speed byte sent is in 0..255 whatever the arguments; [acc] alone is
    passed on as it is. *)
Theorem position_writes_wrap_mod_65536 device sts_id position speed acc s :
  WritePosEx device sts_id (position mod 65536) (speed mod 65536) acc s
    = WritePosEx device sts_id position speed acc s /\
  RegWritePosEx device sts_id (position mod 65536) (speed mod 65536) acc s
    = RegWritePosEx device sts_id position speed acc s /\
  SyncWritePosEx sts_id (position mod 65536) (speed mod 65536) acc s
    = SyncWritePosEx sts_id position speed acc s /\
  head (pos_block position speed acc) = Some acc /\
  Forall (fun b => 0 <= b < 256) (tail (pos_block position speed acc)).
Proof.
  pose proof (pos_block_mod position speed acc) as E. unfold pos_block in E.
  repeat split.
  - unfold WritePosEx. rewrite E. reflexivity.
  - unfold RegWritePosEx. rewrite E. reflexivity.
  - unfold SyncWritePosEx. rewrite E. reflexivity.
  - cbn. repeat constructor;
      first [apply sts_lobyte_range | apply sts_hibyte_range | lia].
Qed.

(** ** Writing a value and reading it back *)

Lemma sts_tohost_high_word (w : Z) :
  32768 <= w < 65536 -> sts_tohost w 15 = - (w - 32768).
Proof.
  intros Hw. unfold sts_tohost.
  assert (Hq : w / 2 ^ 15 = 1)
    by (symmetry; apply (Z.div_unique w (2 ^ 15) 1 (w - 32768)); lia).
  assert (Hbit : Z.testbit w 15 = true)
    by (apply Z.testbit_true; [lia | rewrite Hq; reflexivity]).
  rewrite Hbit. change (Z.shiftl 1 15 - 1) with (Z.ones 15).
  rewrite Z.land_ones by lia.
  rewrite (Z.mod_unique w (2 ^ 15) 1 (w - 32768)) by lia. reflexivity.
Qed.

Lemma word_of_bytes (w : Z) :
  sts_makeword (sts_lobyte w) (sts_hibyte w) = w mod 65536.
Proof.
  rewrite sts_makeword_bytes
    by first [apply sts_lobyte_range | apply sts_hibyte_range].
  apply lobyte_hibyte_value.
Qed.

Lemma ReadPos_registers regs s sts_id :
  (evalM (ReadPos (register_device regs) sts_id) s).1.1
  = sts_tohost (sts_makeword (regs sts_id STS_PRESENT_POSITION_L)
                             (regs sts_id STS_PRESENT_POSITION_H)) 15.
Proof. reflexivity. Qed.

Lemma ReadSpeed_registers regs s sts_id :
  (evalM (ReadSpeed (register_device regs) sts_id) s).1.1
  = sts_tohost (sts_makeword (regs sts_id STS_PRESENT_SPEED_L)
                             (regs sts_id STS_PRESENT_SPEED_H)) 15.
Proof. reflexivity. Qed.

(** X7: if a servo's present-position registers hold the two position
    bytes [WritePosEx] sends for [position], then [ReadPos] gives back
    [position] when 0 <= position <= 32767, but -(32768 + position) when
    position is negative, which differs from [position] except at -16384:
    the write side is two's complement, the read side sign-magnitude. *)
Theorem WritePosEx_ReadPos_readback regs s sts_id position :
  regs sts_id STS_PRESENT_POSITION_L = sts_lobyte position ->
  regs sts_id STS_PRESENT_POSITION_H = sts_hibyte position ->
  let r := (evalM (ReadPos (register_device regs) sts_id) s).1.1 in
  (0 <= position <= 32767 -> r = position) /\
  (-32768 <= position < 0 -> r = - (32768 + position)) /\
  (-32768 <= position < 0 -> position <> -16384 -> r <> position).
Proof.
  intros Hl Hh. cbv zeta.
  rewrite ReadPos_registers, Hl, Hh, word_of_bytes.
  assert (Hneg : -32768 <= position < 0 ->
                 sts_tohost (position mod 65536) 15 = - (32768 + position)).
  { intros Hp.
    rewrite <- (Z.mod_unique position 65536 (-1) (65536 + position)) by lia.
    rewrite sts_tohost_high_word by lia. lia. }
  split; [|split].
  - intros Hp. rewrite Z.mod_small by lia.
    apply sts_tohost_magnitude; [lia|]. change (2 ^ 15) with 32768. lia.
  - exact Hneg.
  - intros Hp Hne. rewrite Hneg by exact Hp. lia.
Qed.

Lemma WritePosEx_ReadPos_readback_witness :
  (evalM (ReadPos (register_device regs_all_0xFF) 1) __init__).1.1
  = - (32768 + -1).
Proof.
  apply (proj1 (proj2 (WritePosEx_ReadPos_readback regs_all_0xFF __init__ 1 (-1)
                         eq_refl eq_refl))).
  lia.
Defined.

(** X8: for every speed in [-32767, 32767], [WriteSpec] sends one 7-byte
    write at [STS_ACC] whose position and time bytes are 0, and if a
    servo's present-speed registers hold the two speed bytes sent,
    [ReadSpeed] gives back [speed]: the write and read sides of the speed
    agree on the sign bit. *)
Theorem WriteSpec_ReadSpeed_readback device regs s s' sts_id speed acc :
  -32767 <= speed <= 32767 ->
  exists lo hi,
    emitted (WriteSpec device sts_id speed acc) s
      = [ReqWrite WriteData sts_id STS_ACC 7 [acc; 0; 0; 0; 0; lo; hi]] /\
    0 <= lo < 256 /\ 0 <= hi < 256 /\
    (regs sts_id STS_PRESENT_SPEED_L = lo ->
     regs sts_id STS_PRESENT_SPEED_H = hi ->
     (evalM (ReadSpeed (register_device regs) sts_id) s').1.1 = speed).
Proof.
  intros Hv.
  destruct (sts_toscs_in_range 15 speed ltac:(lia)) as (enc & Henc & Hdec).
  { change (2 ^ 15) with 32768. lia. }
  exists (sts_lobyte enc), (sts_hibyte enc).
  split; [|split; [apply sts_lobyte_range | split; [apply sts_hibyte_range|]]].
  - apply sent_app.
    etransitivity;
      [apply (stsStep_trace device (CallWriteSpec sts_id speed acc) s)|].
    cbn [call_requests]. rewrite Henc. reflexivity.
  - intros Hl Hh. rewrite ReadSpeed_registers, Hl, Hh, word_of_bytes.
    rewrite Z.mod_small by (eapply sts_toscs_word; eassumption).
    exact Hdec.
Qed.

Lemma WriteSpec_ReadSpeed_readback_witness :
  exists lo hi,
    emitted (WriteSpec device_ack 1 (-5) 50) __init__
      = [ReqWrite WriteData 1 STS_ACC 7 [50; 0; 0; 0; 0; lo; hi]] /\
    0 <= lo < 256 /\ 0 <= hi < 256 /\
    (regs_speed_0x8005 1 STS_PRESENT_SPEED_L = lo ->
     regs_speed_0x8005 1 STS_PRESENT_SPEED_H = hi ->
     (evalM (ReadSpeed (register_device regs_speed_0x8005) 1) __init__).1.1 = -5).
Proof.
  apply (WriteSpec_ReadSpeed_readback device_ack regs_speed_0x8005
           __init__ __init__ 1 (-5) 50).
  lia.
Defined.

(** X9: for a speed in [0, 32767], [WriteSpec] is [WritePosEx] at
    position 0: the same request, the same result and the same state. *)
Theorem WriteSpec_as_WritePosEx_0 device sts_id speed acc s :
  0 <= speed <= 32767 ->
  WriteSpec device sts_id speed acc s =
    ((Ok (WritePosEx device sts_id 0 speed acc s).1),
     (WritePosEx device sts_id 0 speed acc s).2).
Proof.
  intros Hv. unfold WriteSpec, sts_toscs.
  change (Z.shiftl 1 15 - 1) with 32767.
  destruct (Z.gtb_spec (Z.abs speed) 32767); [lia|].
  destruct (Z.ltb_spec speed 0); [lia|]. reflexivity.
Qed.

Lemma WriteSpec_as_WritePosEx_0_witness :
  WriteSpec device_ack 1 1000 50 __init__ =
    ((Ok (WritePosEx device_ack 1 0 1000 50 __init__).1),
     (WritePosEx device_ack 1 0 1000 50 __init__).2).
Proof.
  apply (WriteSpec_as_WritePosEx_0 device_ack 1 1000 50 __init__). lia.
Defined.

(** X10: [WriteSpec] fails exactly for a speed outside [-32767, 32767];
    it then raises [ValueOutOfRange], sends nothing and leaves the handler
    as it was.  For every other speed it sends exactly one request. *)
Theorem WriteSpec_out_of_range device sts_id speed acc s :
  (~ -32767 <= speed <= 32767 ->
   WriteSpec device sts_id speed acc s = (Raise ValueOutOfRange, s)) /\
  (-32767 <= speed <= 32767 ->
   (exists r, evalM (WriteSpec device sts_id speed acc) s = Ok r) /\
   length (emitted (WriteSpec device sts_id speed acc) s) = 1%nat).
Proof.
  split.
  - intros Hv. unfold WriteSpec.
    rewrite (proj2 (sts_toscs_out_of_range 15 speed ltac:(lia))).
    + reflexivity.
    + change (2 ^ 15) with 32768. lia.
  - intros Hv.
    destruct (sts_toscs_in_range 15 speed ltac:(lia)) as (enc & Henc & _).
    { change (2 ^ 15) with 32768. lia. }
    split.
    + unfold evalM, WriteSpec. rewrite Henc. eexists. reflexivity.
    + change (emitted (WriteSpec device sts_id speed acc) s)
        with (sent s (stsStep device (CallWriteSpec sts_id speed acc) s)).
      rewrite (sent_app _ _ _ (stsStep_trace device (CallWriteSpec sts_id speed acc) s)).
      cbn [call_requests]. rewrite Henc. reflexivity.
Qed.

Lemma WriteSpec_out_of_range_witness :
  WriteSpec device_ack 1 40000 50 __init__ = (Raise ValueOutOfRange, __init__).
Proof.
  apply (proj1 (WriteSpec_out_of_range device_ack 1 40000 50 __init__)). lia.
Defined.

(** ** Where the bytes of a position write land *)

Lemma written_byte_outside inst i start n data a :
  a < start \/ start + Z.of_nat (length data) <= a ->
  written_byte (ReqWrite inst i start n data) a = None.
Proof.
  intros H. unfold written_byte.
  destruct (Z.leb_spec start a) as [Hle|Hlt]; [|reflexivity].
  apply lookup_ge_None. lia.
Qed.

(** X11: the request of [WritePosEx] (and the equal block of
    [RegWritePosEx] and [SyncWritePosEx]) puts [acc] into [STS_ACC], the
    position into [STS_GOAL_POSITION_L/H], zero into [STS_GOAL_TIME_L/H]
    and the speed into [STS_GOAL_SPEED_L/H], and touches no register
    outside 41..47, so neither [STS_TORQUE_ENABLE] nor [STS_LOCK];
    [WriteSpec] writes the same window and so sets the goal position and
    goal time registers to 0. *)
Theorem position_write_register_layout device s sts_id position speed acc :
  let w := ReqWrite WriteData sts_id STS_ACC 7 (pos_block position speed acc) in
  emitted (WritePosEx device sts_id position speed acc) s = [w] /\
  written_byte w STS_ACC = Some acc /\
  written_byte w STS_GOAL_POSITION_L = Some (sts_lobyte position) /\
  written_byte w STS_GOAL_POSITION_H = Some (sts_hibyte position) /\
  written_byte w STS_GOAL_TIME_L = Some 0 /\
  written_byte w STS_GOAL_TIME_H = Some 0 /\
  written_byte w STS_GOAL_SPEED_L = Some (sts_lobyte speed) /\
  written_byte w STS_GOAL_SPEED_H = Some (sts_hibyte speed) /\
  (forall a, a < STS_ACC \/ STS_GOAL_SPEED_H < a -> written_byte w a = None) /\
  written_byte w STS_TORQUE_ENABLE = None /\
  written_byte w STS_LOCK = None /\
  (forall r, In r (emitted (WriteSpec device sts_id speed acc) s) ->
     written_byte r STS_ACC = Some acc /\
     written_byte r STS_GOAL_POSITION_L = Some 0 /\
     written_byte r STS_GOAL_POSITION_H = Some 0 /\
     written_byte r STS_GOAL_TIME_L = Some 0 /\
     written_byte r STS_GOAL_TIME_H = Some 0 /\
     written_byte r STS_TORQUE_ENABLE = None /\
     written_byte r STS_LOCK = None).
Proof.
  cbv zeta.
  split; [apply sent_app; reflexivity|].
  do 7 (split; [reflexivity|]).
  split; [|split; [reflexivity|split; [reflexivity|]]].
  - intros a Ha. apply written_byte_outside. cbn.
    unfold STS_ACC, STS_GOAL_SPEED_H in *. lia.
  - intros r Hr.
    change (emitted (WriteSpec device sts_id speed acc) s)
      with (sent s (stsStep device (CallWriteSpec sts_id speed acc) s)) in Hr.
    rewrite (sent_app _ _ _ (stsStep_trace device (CallWriteSpec sts_id speed acc) s))
      in Hr.
    cbn [call_requests] in Hr.
    destruct (sts_toscs speed 15); [|destruct Hr].
    destruct Hr as [<-|[]]. repeat split.
Qed.

Lemma position_write_register_layout_witness :
  written_byte (ReqWrite WriteData 1 STS_ACC 7 (pos_block 2048 1000 50)) 48 = None.
Proof.
  apply (proj1 (proj2 (proj2 (proj2 (proj2 (proj2 (proj2 (proj2 (proj2
           (position_write_register_layout device_ack __init__ 1 2048 1000 50)))))))))).
  right. reflexivity.
Defined.

(** ** Staging through SyncWritePosEx *)

(** X12: on a handler reached by any sequence of calls, [SyncWritePosEx]
    succeeds exactly when its id is not staged yet; it then stages the
    block [acc, lobyte(position), hibyte(position), 0, 0, lobyte(speed),
    hibyte(speed)] for that id.  In every case the blocks of all other ids
    stay as they are and nothing is put on the bus. *)
Theorem SyncWritePosEx_stages device cs sts_id position speed acc :
  let s := run device cs in
  let m := SyncWritePosEx sts_id position speed acc in
  let staged (x : sts) := GroupSyncWrite.data_dict (groupSyncWrite x) in
  (evalM m s = Ok tt <-> staged s !! sts_id = None) /\
  (staged s !! sts_id = None ->
   staged (execM m s) !! sts_id =
     Some [acc; sts_lobyte position; sts_hibyte position; 0; 0;
           sts_lobyte speed; sts_hibyte speed] /\
   size (staged (execM m s)) = S (size (staged s))) /\
  (forall j, j <> sts_id -> staged (execM m s) !! j = staged s !! j) /\
  port_log (execM m s) = port_log s /\
  emitted m s = [].
Proof.
  cbv zeta. pose proof (run_inv device cs) as (_ & Hl & _).
  unfold emitted, sent, evalM, execM.
  rewrite SyncWritePosEx_cases by exact Hl.
  destruct (GroupSyncWrite.data_dict (groupSyncWrite (run device cs)) !! sts_id)
    as [blk|] eqn:E; cbn [fst snd port_log groupSyncWrite GroupSyncWrite.data_dict].
  - repeat split; try discriminate; try (rewrite drop_all; reflexivity).
  - repeat split; try (rewrite drop_all; reflexivity).
    + apply lookup_insert_eq.
    + apply map_size_insert_None. exact E.
    + intros j Hj. apply lookup_insert_ne. congruence.
Qed.

Lemma SyncWritePosEx_stages_witness :
  GroupSyncWrite.data_dict
    (groupSyncWrite (execM (SyncWritePosEx 2 (-7) 20 5)
       (run device_ack [inl (CallSyncWritePosEx 1 2048 1000 50)]))) !! 2
  = Some [5; sts_lobyte (-7); sts_hibyte (-7); 0; 0; sts_lobyte 20; sts_hibyte 20].
Proof.
  apply (proj1 (proj2 (SyncWritePosEx_stages device_ack
           [inl (CallSyncWritePosEx 1 2048 1000 50)] 2 (-7) 20 5))).
  vm_compute. reflexivity.
Defined.
